(** * Content extraction and paywall detection of deep-journalist

    Shallow embedding of
    - app/scrapers/extractors/content_extractor.py  (module [Extractors])
    - app/scrapers/content_extractor.py             (module [OldExtractor])
    - app/scrapers/bypass/paywall_bypass.py          (module [Bypass])
    - app/scrapers/base_scraper.py (CONTENT_SELECTORS)

    Python strings are modelled as [string] over ASCII; the whitespace,
    word and line-break classes below are those of CPython restricted to
    ASCII.  A BeautifulSoup tree is modelled by [node]; parsing an HTML
    string (BeautifulSoup(html, 'html.parser')) and readability's
    [Document] are external libraries and enter as section variables. *)

From Stdlib Require Import String Ascii List Bool ZArith Lia.
Import ListNotations.
Set Warnings "-register-all".
Open Scope string_scope.

(** ** Python string primitives *)
Module Py.

Local Open Scope nat_scope.

(** [str.isspace] on ASCII: \t \n \v \f \r, \x1c-\x1f and space. Also the
    class of [\s] in a [str] regex, and what [str.split]/[str.strip] use. *)
Definition is_space (c : ascii) : bool :=
  let n := nat_of_ascii c in
  Nat.eqb n 32 || ((9 <=? n) && (n <=? 13)) || ((28 <=? n) && (n <=? 31)).

(** Line boundaries of [str.splitlines] on ASCII. *)
Definition is_line_break (c : ascii) : bool :=
  let n := nat_of_ascii c in
  ((10 <=? n) && (n <=? 13)) || ((28 <=? n) && (n <=? 30)).

Definition is_upper (c : ascii) : bool :=
  let n := nat_of_ascii c in (65 <=? n) && (n <=? 90).
Definition is_lower (c : ascii) : bool :=
  let n := nat_of_ascii c in (97 <=? n) && (n <=? 122).
Definition is_digit (c : ascii) : bool :=
  let n := nat_of_ascii c in (48 <=? n) && (n <=? 57).
Definition is_alpha (c : ascii) : bool := is_upper c || is_lower c.

(** [\w] in a [str] regex on ASCII. *)
Definition is_word (c : ascii) : bool :=
  is_alpha c || is_digit c || Ascii.eqb c "_"%char.

Definition lower_char (c : ascii) : ascii :=
  if is_upper c then ascii_of_nat (nat_of_ascii c + 32) else c.

(** [str.lower] *)
Fixpoint lower (s : string) : string :=
  match s with
  | EmptyString => EmptyString
  | String c s' => String (lower_char c) (lower s')
  end.

(** [needle in hay] *)
Fixpoint contains (needle hay : string) : bool :=
  String.prefix needle hay ||
  match hay with
  | EmptyString => false
  | String _ h' => contains needle h'
  end.

(** [str.split()]: the first component is the word that starts the
    string (empty when it starts with whitespace), the second the words
    after it. *)
Fixpoint split_go (s : string) : string * list string :=
  match s with
  | EmptyString => (EmptyString, [])
  | String c s' =>
      let (w, ws) := split_go s' in
      if is_space c
      then (EmptyString, if String.eqb w EmptyString then ws else w :: ws)
      else (String c w, ws)
  end.

Definition split (s : string) : list string :=
  let (w, ws) := split_go s in
  if String.eqb w EmptyString then ws else w :: ws.

(** [sep.join(xs)] *)
Definition join (sep : string) (xs : list string) : string :=
  String.concat sep xs.

Fixpoint lstrip (s : string) : string :=
  match s with
  | EmptyString => EmptyString
  | String c s' => if is_space c then lstrip s' else s
  end.

Fixpoint rstrip (s : string) : string :=
  match s with
  | EmptyString => EmptyString
  | String c s' =>
      let r := rstrip s' in
      if is_space c && String.eqb r EmptyString then EmptyString
      else String c r
  end.

(** [str.strip()] *)
Definition strip (s : string) : string := rstrip (lstrip s).

(** [str.splitlines()] on ASCII, with \r\n as one boundary. *)
Fixpoint splitlines (s : string) : list string :=
  match s with
  | EmptyString => []
  | String c s' =>
      if is_line_break c then
        EmptyString ::
          (if Ascii.eqb c "013"%char then
             match s' with
             | String d s'' =>
                 if Ascii.eqb d "010"%char then splitlines s'' else splitlines s'
             | EmptyString => []
             end
           else splitlines s')
      else
        match splitlines s' with
        | [] => [String c EmptyString]
        | l :: ls => String c l :: ls
        end
  end.

(** [re.sub(r'\s+', ' ', s)] *)
Fixpoint sub_ws (s : string) : string :=
  match s with
  | EmptyString => EmptyString
  | String c s' =>
      let r := sub_ws s' in
      if is_space c then
        match r with
        | String d _ => if Ascii.eqb d " "%char then r else String " "%char r
        | EmptyString => String " "%char r
        end
      else String c r
  end.

Fixpoint filter_chars (keep : ascii -> bool) (s : string) : string :=
  match s with
  | EmptyString => EmptyString
  | String c s' => if keep c then String c (filter_chars keep s') else filter_chars keep s'
  end.

Fixpoint drop (n : nat) (s : string) : string :=
  match n, s with
  | O, _ => s
  | S n', String _ s' => drop n' s'
  | S _, EmptyString => EmptyString
  end.

(** Truthiness of a Python string. *)
Definition truthy (s : string) : bool := negb (String.eqb s EmptyString).

(** Every character of [s] satisfies [P]. *)
Fixpoint all_chars (P : ascii -> bool) (s : string) : bool :=
  match s with
  | EmptyString => true
  | String c s' => P c && all_chars P s'
  end.

Definition not_space (c : ascii) : bool := negb (is_space c).

End Py.

(** ** BeautifulSoup trees *)
Module Html.

(** A parsed tree: a string or a Tag with its attribute dict (one
    binding per key, as bs4 keeps it) and children.  [Text] is a
    NavigableString or CData; [Special cls] is a string of another
    NavigableString subclass: the class bs4's HTML builders give the text
    inside an rt, rp, style, script or template tag ([cls] is that tag's
    name), or a Comment, Doctype, Declaration or ProcessingInstruction
    ([cls] is another name, e.g. "comment").  The BeautifulSoup object
    itself is the Tag named "[document]". *)
Inductive node : Type :=
| Text (s : string)
| Special (cls : string) (s : string)
| Elem (name : string) (attrs : list (string * string)) (kids : list node).

Definition document (kids : list node) : node := Elem "[document]" [] kids.

Definition tag_name (n : node) : option string :=
  match n with Elem t _ _ => Some t | _ => None end.

Definition is_tag (t : string) (n : node) : bool :=
  match n with Elem t' _ _ => String.eqb t t' | _ => false end.

Definition is_tag_in (ts : list string) (n : node) : bool :=
  existsb (fun t => is_tag t n) ts.

Fixpoint assoc (k : string) (l : list (string * string)) : option string :=
  match l with
  | [] => None
  | (k', v) :: l' => if String.eqb k k' then Some v else assoc k l'
  end.

(** [tag.get(k)] *)
Definition get_attr (k : string) (n : node) : option string :=
  match n with Elem _ a _ => assoc k a | _ => None end.

(** Multi-valued attributes (class, rel) as bs4 stores them: the value
    split on whitespace. *)
Definition get_tokens (k : string) (n : node) : option (list string) :=
  option_map Py.split (get_attr k n).

(** All descendants in document order (what find/find_all walk). *)
Fixpoint descendants (n : node) : list node :=
  match n with
  | Text _ | Special _ _ => []
  | Elem _ _ kids =>
      (fix go (l : list node) : list node :=
         match l with
         | [] => []
         | k :: l' => k :: (descendants k ++ go l')%list
         end) kids
  end.

(** [HTMLTreeBuilder.DEFAULT_STRING_CONTAINERS] *)
Definition string_containers : list string := ["rt"; "rp"; "style"; "script"; "template"].

(** [tag.interesting_string_types]: the class of the tag's name in the
    string containers, else NavigableString and CData ([None]). *)
Definition interesting (n : node) : option string :=
  match n with
  | Elem t _ _ => if existsb (String.eqb t) string_containers then Some t else None
  | _ => None
  end.

(** The strings below a node in document order whose class is [cls]
    ([_all_strings] with [types=cls]). *)
Fixpoint strings_of (cls : option string) (n : node) : list string :=
  match n with
  | Text s => match cls with None => [s] | Some _ => [] end
  | Special c s => match cls with Some c' => if String.eqb c c' then [s] else [] | None => [] end
  | Elem _ _ kids =>
      (fix go (l : list node) : list string :=
         match l with
         | [] => []
         | k :: l' => (strings_of cls k ++ go l')%list
         end) kids
  end.

(** [_all_strings()] with the default types: the node's interesting
    strings only, so a tag's get_text leaves out the script, style and
    template text and the comments below it. *)
Definition strings (n : node) : list string := strings_of (interesting n) n.

(** [get_text()], [get_text(separator=sep)], [get_text(strip=True)] *)
Definition get_text (n : node) : string := String.concat "" (strings n).
Definition get_text_sep (sep : string) (n : node) : string := String.concat sep (strings n).
Definition get_text_strip (n : node) : string :=
  String.concat "" (filter Py.truthy (map Py.strip (strings n))).

(** [n.find_all(pred)] and [n.find(pred)] *)
Definition find_all_p (p : node -> bool) (n : node) : list node :=
  filter p (descendants n).
Definition find_p (p : node -> bool) (n : node) : option node :=
  List.find p (descendants n).

Definition find (t : string) (n : node) : option node := find_p (is_tag t) n.
Definition find_all (ts : list string) (n : node) : list node := find_all_p (is_tag_in ts) n.

(** [for tag in n.find_all(ts): tag.decompose()] *)
Fixpoint decompose (ts : list string) (n : node) : node :=
  match n with
  | Text _ | Special _ _ => n
  | Elem t a kids =>
      Elem t a
        ((fix go (l : list node) : list node :=
            match l with
            | [] => []
            | k :: l' => if is_tag_in ts k then go l' else decompose ts k :: go l'
            end) kids)
  end.

(** [n.select_one(sel)] for the simple selectors the code uses: [.cls],
    [#id] and a type selector. *)
Definition simple_selector_matches (sel : string) (n : node) : bool :=
  match n with
  | Text _ | Special _ _ => false
  | Elem t _ _ =>
      match sel with
      | String "."%char cls =>
          match get_tokens "class" n with
          | Some toks => existsb (String.eqb cls) toks
          | None => false
          end
      | String "#"%char i =>
          match get_attr "id" n with Some v => String.eqb v i | None => false end
      | _ => String.eqb sel t
      end
  end.

Definition select_one (sel : string) (n : node) : option node :=
  find_p (simple_selector_matches sel) n.

End Html.

(** ** Python exceptions *)
Module Exn.

Inductive value_error : Type :=
| EmptyHTML                                  (* "Empty HTML content" *)
| LengthBelowMinimum (len : Z) (minimum : Z) (* "Content length {len} below minimum {min}" *)
| OtherValueError (msg : string).

Inductive exn : Type :=
| ValueError (e : value_error)
| TypeError (msg : string)
| IndexError
| LibraryError (msg : string).   (* raised inside bs4/readability *)

(** The outcome of a Python call: a value or a raised exception. *)
Inductive result (A : Type) : Type :=
| Ok (a : A)
| Exc (e : exn).
Arguments Ok {A} a.
Arguments Exc {A} e.

Definition bind {A B} (r : result A) (f : A -> result B) : result B :=
  match r with Ok a => f a | Exc e => Exc e end.

(** A Python object used as a subscript. *)
Inductive pykey : Type :=
| PyInt (i : Z)
| PyStr (s : string).

(** [list.__getitem__(key)]: an int indexes (negative from the end), any
    other key raises "list indices must be integers or slices, not str". *)
Definition list_getitem {A} (l : list A) (k : pykey) : result A :=
  match k with
  | PyInt i =>
      let n := Z.of_nat (List.length l) in
      let j := if (i <? 0)%Z then (n + i)%Z else i in
      if ((0 <=? j) && (j <? n))%Z
      then match nth_error l (Z.to_nat j) with Some a => Ok a | None => Exc IndexError end
      else Exc IndexError
  | PyStr _ => Exc (TypeError "list indices must be integers or slices, not str")
  end.

End Exn.

Notation "x <- r ;; k" := (Exn.bind r (fun x => k)) (at level 61, r at next level, right associativity).

(** ** app/scrapers/base_scraper.py *)
Module BaseScraper.

(** [BaseScraper.CONTENT_SELECTORS]: a list. *)
Definition CONTENT_SELECTORS : list string :=
  [ "article"; "main"; "[role='main']"; ".article-content"; ".post-content";
    ".entry-content"; "#content"; ".content" ].

(** [str(n)] for an int: the decimal digits of [n], most significant
    first; [fuel] bounds the number of digits. *)
Fixpoint digits_go (fuel : nat) (n : Z) (acc : string) : string :=
  match fuel with
  | O => acc
  | S f =>
      let acc' := String (ascii_of_nat (48 + Z.to_nat (n mod 10))) acc in
      if (n <? 10)%Z then acc' else digits_go f (n / 10) acc'
  end.

Definition str_int (z : Z) : string :=
  let s := digits_go (S (Z.to_nat (Z.log2 (Z.abs z)))) (Z.abs z) EmptyString in
  if (z <? 0)%Z then String "-"%char s else s.

(** What [session.get(url)] in [_get_html] comes to: a response whose
    [text()] was read, an [aiohttp.ClientError], or any other
    exception. *)
Inductive http_outcome : Type :=
| Reply (status : Z) (body : string)
| ClientFailure (msg : string)
| OtherFailure (msg : string).

(** An exception a [_get_html] implementation raises: a [ScrapingError]
    or another [Exception], with its [str]. *)
Inductive raised : Type :=
| ScrapingError (msg : string)
| OtherException (msg : string).

(** [BaseScraper.scrape_article]: [inl html], or [inr (code, detail)] for
    [HTTPException(status_code=code, detail=detail)].  [fetched] is the
    outcome of [await self._get_html(url)], which runs the [_get_html] of
    the class of [self]: a returned string, or the exception it raises. *)
Definition scrape_article (fetched : string + raised) : string + (Z * string) :=
  match fetched with
  | inl html =>
      if Py.truthy html then inl html else inr (500%Z, "Failed to get HTML content")
  | inr (ScrapingError m) => inr (500%Z, m)
  | inr (OtherException m) => inr (500%Z, "Failed to scrape article: " ++ m)
  end.

End BaseScraper.

(** ** app/scrapers/extractors/content_extractor.py *)
Module Extractors.
Import Html Exn.

(** The URL pattern
    [http[s]?://(?:[a-zA-Z]|[0-9]|[$-_@.&+]|[!*\\(\\),]|(?:%[0-9a-fA-F][0-9a-fA-F]))+]:
    one repeated character is a letter, a digit, one of $ .. _ (0x24-0x5F,
    which holds @ . & + and %) or one of ! * \ ( ) ,. *)
Definition url_char (c : ascii) : bool :=
  let n := nat_of_ascii c in
  Py.is_alpha c || Py.is_digit c || ((36 <=? n) && (n <=? 95))%nat ||
  existsb (Ascii.eqb c) ["!"; "*"; "\"; "("; ")"; ","]%char.

Fixpoint url_run (s : string) : string :=
  match s with
  | EmptyString => EmptyString
  | String c s' => if url_char c then url_run s' else s
  end.

(** A match of the URL pattern at the start of [s]: the rest of [s]
    after the (greedy) match. *)
Definition url_match (s : string) : option string :=
  let after :=
    if String.prefix "https://" s then Some (Py.drop 8 s)
    else if String.prefix "http://" s then Some (Py.drop 7 s)
    else None in
  match after with
  | Some (String c r) => if url_char c then Some (url_run r) else None
  | _ => None
  end.

Fixpoint url_sub_go (fuel : nat) (s : string) : string :=
  match fuel with
  | O => s
  | S f =>
      match s with
      | EmptyString => EmptyString
      | String c s' =>
          match url_match s with
          | Some rest => url_sub_go f rest
          | None => String c (url_sub_go f s')
          end
      end
  end.

(** [re.sub(URL_PATTERN, '', text)]: every match consumes at least one
    character, so [length text] steps suffice. *)
Definition url_sub (s : string) : string := url_sub_go (String.length s) s.

(** [re.sub(r'[^\w\s.,!?-]', '', text)] *)
Definition special_keep (c : ascii) : bool :=
  Py.is_word c || Py.is_space c || existsb (Ascii.eqb c) ["."; ","; "!"; "?"; "-"]%char.
Definition special_sub (s : string) : string := Py.filter_chars special_keep s.

Definition paywall_classes : list string :=
  [ "paywall"; "subscription-required"; "premium-content";
    "subscriber-only"; "paid-content"; "restricted-content" ].

Definition paywall_text : list string :=
  [ "subscribe to continue"; "subscription required"; "premium article";
    "subscribe now"; "sign up to read"; "premium content";
    "subscribers only"; "register to continue" ].

Definition action_words : list string := [ "subscribe"; "sign in"; "log in"; "register" ].

(** [lambda x: x and any(p in x.lower() for p in paywall_classes)] *)
Definition paywall_class_fn (x : string) : bool :=
  Py.truthy x && existsb (fun p => Py.contains p (Py.lower x)) paywall_classes.

(** bs4 matching a multi-valued attribute ([class], [rel]) against a
    matcher: each value, then the values joined by spaces; a missing
    attribute never matches here. *)
Definition attr_matches (k : string) (fn : string -> bool) (n : node) : bool :=
  match get_tokens k n with
  | Some toks => existsb fn toks || fn (Py.join " " toks)
  | None => false
  end.

Definition class_matches (fn : string -> bool) (n : node) : bool := attr_matches "class" fn n.

(** Check (1): [soup.find_all(class_=...)] is non-empty. *)
Definition class_check (soup : node) : bool :=
  existsb (class_matches paywall_class_fn) (descendants soup).

(** Check (2): paywall phrase in [soup.get_text().lower()]. *)
Definition text_check (soup : node) : bool :=
  let page_text := Py.lower (get_text soup) in
  existsb (fun t => Py.contains t page_text) paywall_text.

(** [article = soup.find('article') or soup]; a Tag is always truthy. *)
Definition button_scope (soup : node) : node :=
  match find "article" soup with Some a => a | None => soup end.

Definition action_text (b : node) : bool :=
  let text := Py.lower (get_text b) in
  existsb (fun p => Py.contains p text) action_words.

(** Check (3): a button or link under [button_scope] with action text. *)
Definition button_check (soup : node) : bool :=
  existsb action_text (find_all ["button"; "a"] (button_scope soup)).

(** [ContentExtractor._detect_paywall] *)
Definition _detect_paywall (soup : node) : bool :=
  if class_check soup then true
  else if text_check soup then true
  else if button_check soup then true
  else false.

(** [soup.find('meta', {k: v})] *)
Definition meta_with (k v : string) (n : node) : bool :=
  is_tag "meta" n &&
  match get_attr k n with Some v' => String.eqb v v' | None => false end.

(** [x and x.get(k)] as a truthy string *)
Definition truthy_attr (k : string) (x : option node) : option string :=
  match x with
  | Some e => match get_attr k e with
              | Some v => if Py.truthy v then Some v else None
              | None => None
              end
  | None => None
  end.

Definition _extract_title (soup : node) : string :=
  match truthy_attr "content" (find_p (meta_with "property" "og:title") soup) with
  | Some v => v
  | None =>
  match truthy_attr "content" (find_p (meta_with "name" "twitter:title") soup) with
  | Some v => v
  | None =>
  match find "h1" soup with
  | Some h1 => get_text_strip h1
  | None =>
  match find "title" soup with
  | Some t => get_text_strip t
  | None => ""
  end end end end.

(** [re.compile(r'byline|author')] searched in a class value. *)
Definition byline_re (x : string) : bool :=
  Py.contains "byline" x || Py.contains "author" x.

Definition _extract_author (soup : node) : string :=
  match truthy_attr "content" (find_p (meta_with "name" "author") soup) with
  | Some v => v
  | None =>
  match truthy_attr "content" (find_p (meta_with "property" "article:author") soup) with
  | Some v => v
  | None =>
  match find_p (class_matches byline_re) soup with
  | Some b => get_text_strip b
  | None => ""
  end end end.

Definition date_names : list string := ["date"; "article:published_time"; "publication_date"].

Definition date_meta (n : node) : bool :=
  match get_attr "name" n with
  | Some v => existsb (String.eqb v) date_names
  | None => false
  end.

Definition _extract_date (soup : node) : string :=
  match List.find date_meta (find_all ["meta"] soup) with
  | Some m => match get_attr "content" m with Some c => c | None => "" end
  | None =>
      match truthy_attr "datetime" (find "time" soup) with
      | Some d => d
      | None => ""
      end
  end.

(** [soup.find('link', {'rel': 'canonical'})]: [rel] is multi-valued. *)
Definition canonical_link (n : node) : bool :=
  is_tag "link" n && attr_matches "rel" (String.eqb "canonical") n.

Definition _extract_canonical_url (soup : node) : string :=
  match truthy_attr "href" (find_p canonical_link soup) with
  | Some h => h
  | None => ""
  end.

Definition _is_article_link (url : string) : bool :=
  existsb (fun x => Py.contains x url) ["/article/"; "/story/"; "/news/"; "/opinion/"; ".html"].

Record metadata : Type := {
  md_title : string;
  md_author : string;
  md_date : string;
  md_canonical_url : string }.

(** The dict returned by [extract_content]. *)
Record extraction : Type := {
  content : string;
  meta : metadata;
  word_count : nat;
  has_paywall : bool }.

(** The instance fields [extract_content] reads. *)
Record extractor : Type := {
  min_content_length : Z;
  test_mode : bool;
  _test_content : option extraction }.

Record parsed_article : Type := {
  pa_title : string;
  pa_content : string;
  pa_author : option string;
  pa_date : option string;
  pa_url : string;
  pa_links : list string }.

Section Pipeline.

(** [BeautifulSoup(s, 'html.parser')]: [bs_reject s] is the exception the
    constructor raises on [s] (e.g. [ParserRejectedMarkup]), [None] when
    it accepts [s], and then [bs_parse s] is the tree it builds. *)
Variable bs_parse : string -> node.
Variable bs_reject : string -> option exn.
(** [Document(html).summary()] and [Document(html).title()] of readability. *)
Variable readability_summary : string -> result string.
Variable readability_title : string -> result string.
(** [urllib.parse.urljoin] *)
Variable urljoin : string -> string -> string.

Definition _clean_content (content : string) : string :=
  let soup := decompose ["script"; "style"; "nav"; "header"; "footer"] (bs_parse content) in
  let text := get_text_sep " " soup in
  let text := Py.join " " (Py.split text) in
  let text := url_sub text in
  let text := special_sub text in
  Py.strip text.

(** Lines 72-79: readability's summary, else the joined text of every
    article. *)
Definition main_content (soup : node) (summary : string) : string :=
  if Py.truthy summary then summary
  else match find_all ["article"] soup with
       | [] => summary
       | articles => Py.join " " (map get_text articles)
       end.

(** [ContentExtractor.extract_content]; the warning logged when
    [word_count < 100] has no effect on the result.  [_clean_content]
    parses its argument again, and raises when the parser rejects it. *)
Definition extract_content (self : extractor) (html : string) : result extraction :=
  match test_mode self, _test_content self with
  | true, Some tc => Ok tc
  | _, _ =>
      match bs_reject html with
      | Some e => Exc e
      | None =>
      let soup := decompose ["script"; "style"; "iframe"] (bs_parse html) in
      let hp := _detect_paywall soup in
      summary <- readability_summary html ;;
      let c0 := main_content soup summary in
      match bs_reject c0 with
      | Some e => Exc e
      | None =>
      let c := _clean_content c0 in
      title <- readability_title html ;;
      let md := {| md_title := title;
                   md_author := _extract_author soup;
                   md_date := _extract_date soup;
                   md_canonical_url := _extract_canonical_url soup |} in
      let wc := List.length (Py.split c) in
      Ok {| content := c; meta := md; word_count := wc; has_paywall := hp |}
      end end
  end.

(** [ContentExtractor._extract_metadata]: [self.CONTENT_SELECTORS[field]]
    is looked up first, then iterated. *)
Definition _extract_metadata (soup : node) (field : string) : result (option string) :=
  sels <- list_getitem BaseScraper.CONTENT_SELECTORS (PyStr field) ;;
  Ok ((fix go (s : string) : option string :=
         match s with
         | EmptyString => None
         | String c s' =>
             match select_one (String c EmptyString) soup with
             | Some e => Some (Py.strip (get_text e))
             | None => go s'
             end
         end) sels).

Definition _extract_links (soup : node) (base_url : string) : list string :=
  filter _is_article_link
    (flat_map (fun l => match get_attr "href" l with
                        | Some h => [urljoin base_url h]
                        | None => []
                        end)
       (find_all ["a"] soup)).

(** [ContentExtractor._parse_article]; [Document(html)] only stores its
    input, so the parser is the first to raise. *)
Definition _parse_article (html url : string) : result parsed_article :=
  match bs_reject html with
  | Some e => Exc e
  | None =>
  let soup := bs_parse html in
  summary <- readability_summary html ;;
  title <- (let t := _extract_title soup in
            if Py.truthy t then Ok t else readability_title html) ;;
  author <- _extract_metadata soup "author" ;;
  date <- _extract_metadata soup "date" ;;
  Ok {| pa_title := title; pa_content := summary; pa_author := author;
        pa_date := date; pa_url := url; pa_links := _extract_links soup url |}
  end.

Definition blocked_text : list string :=
  ["subscribe"; "subscription"; "premium"; "register"; "sign up"].

(** [ContentExtractor._is_blocked]; [page] is the outcome of its call to
    [self.get_content()].  Any exception makes it answer true. *)
Definition _is_blocked (page : result string) : bool :=
  match page with
  | Exc _ => true
  | Ok c =>
      let content_lower := Py.lower c in
      if (String.length c <? 1000)%nat
      then existsb (fun t => Py.contains t content_lower) blocked_text
      else false
  end.

(** [ContentExtractor.extract_article]: [navigate] is [self.navigate(url)],
    [page] the outcome of [self.get_content()] (read again by
    [_is_blocked]), and [bypass] the [async with self.paywall_bypass]
    block that re-fetches the content. *)
Definition extract_article (navigate : string -> result unit) (page : result string)
  (bypass : string -> result string) (url : string) : result parsed_article :=
  u <- navigate url ;;
  content <- page ;;
  content <- (if negb (Py.truthy content) || _is_blocked page then bypass url else Ok content) ;;
  if negb (Py.truthy content)
  then Exc (ValueError (OtherValueError "Failed to extract content"))
  else _parse_article content url.

End Pipeline.

(** [ContentExtractor._get_html], which overrides [BaseScraper._get_html]
    and has no test-mode branch: a status other than 200 raises
    [ValueError(f"Failed to fetch URL: {response.status}")], and an
    [aiohttp.ClientError] or any other exception of the request passes
    through unchanged. *)
Definition _get_html (outcome : BaseScraper.http_outcome) : string + BaseScraper.raised :=
  match outcome with
  | BaseScraper.Reply status body =>
      if (status =? 200)%Z then inl body
      else inr (BaseScraper.OtherException ("Failed to fetch URL: " ++ BaseScraper.str_int status))
  | BaseScraper.ClientFailure m => inr (BaseScraper.OtherException m)
  | BaseScraper.OtherFailure m => inr (BaseScraper.OtherException m)
  end.

End Extractors.

(** ** app/scrapers/content_extractor.py *)
Module OldExtractor.
Import Html Exn.

(** [ContentExtractor._extract_main_content]; [if article:] holds for any
    Tag, empty or not. *)
Definition _extract_main_content (soup : node) : string :=
  match find "article" soup with
  | Some a => get_text a
  | None =>
  match find "main" soup with
  | Some m => get_text m
  | None =>
  match find "body" soup with
  | Some b => get_text b
  | None => ""
  end end end.

(** [ContentExtractor.clean_content] *)
Definition clean_content (content : string) : string :=
  let content := Py.sub_ws content in
  let content := Py.join (String "010"%char EmptyString)
                   (map Py.strip (filter (fun l => Py.truthy (Py.strip l)) (Py.splitlines content))) in
  Py.strip content.

(** The metadata dict: [date] starts as [None]. *)
Record metadata : Type := {
  md_title : string;
  md_author : string;
  md_date : option string;
  md_description : string }.

(** [soup.find('meta', attrs={"name": name}) or soup.find('meta', attrs={"property": name})]
    followed by [if meta and meta.get("content")]. *)
Definition meta_lookup (soup : node) (name : string) : option string :=
  let m := match find_p (Extractors.meta_with "name" name) soup with
           | Some e => Some e
           | None => find_p (Extractors.meta_with "property" name) soup
           end in
  Extractors.truthy_attr "content" m.

(** [for name in meta_names: ... break] *)
Fixpoint first_meta (soup : node) (names : list string) : option string :=
  match names with
  | [] => None
  | n :: ns => match meta_lookup soup n with Some v => Some v | None => first_meta soup ns end
  end.

Definition author_names : list string := ["author"; "article:author"].
Definition description_names : list string := ["description"; "og:description"].
Definition date_names : list string := ["article:published_time"; "date"; "pubdate"].

(** [ContentExtractor.extract_metadata] *)
Definition extract_metadata (soup : node) : metadata :=
  let title := match find "title" soup with Some t => Py.strip (get_text t) | None => "" end in
  {| md_title := title;
     md_author := match first_meta soup author_names with Some v => v | None => "" end;
     md_date := match first_meta soup date_names with Some v => Some v | None => None end;
     md_description := match first_meta soup description_names with Some v => v | None => "" end |}.

Record extraction : Type := {
  content : string;
  meta : metadata;
  extracted_at : string }.

Section Pipeline.

(** [BeautifulSoup(s, 'html.parser')]: the exception it raises on [s],
    or [None] and the tree it builds. *)
Variable bs_parse : string -> node.
Variable bs_reject : string -> option exn.

(** [ContentExtractor(min_content_length).extract_content(html)];
    [now] is the reading of [datetime.now().isoformat()]. *)
Definition extract_content (min_content_length : Z) (html : string) (now : string)
  : result extraction :=
  if negb (Py.truthy html) then Exc (ValueError EmptyHTML)
  else
    match bs_reject html with
    | Some e => Exc e
    | None =>
    let soup := bs_parse html in
    let c := clean_content (_extract_main_content soup) in
    let len := Z.of_nat (String.length c) in
    if (len <? min_content_length)%Z then Exc (ValueError (LengthBelowMinimum len min_content_length))
    else Ok {| content := c; meta := extract_metadata soup; extracted_at := now |}
    end.

End Pipeline.

End OldExtractor.

(** ** app/scrapers/bypass/paywall_bypass.py *)
Module Bypass.
Import Html.

Definition PAYWALL_INDICATORS : list string :=
  [ "subscribe"; "subscription"; "premium"; "paid content"; "members only";
    "sign up to read"; "register to continue"; "paid subscribers only" ].

Definition PAYWALL_SELECTORS : list string :=
  [ ".paywall"; ".subscription-required"; ".premium-content"; "#paywall-container";
    ".register-wall"; ".paid-content" ].

(** The [logger.info] lines of [detect_paywall]. *)
Inductive log_line : Type :=
| ViaSelector (sel : string)
| ViaIndicator (ind : string)
| ViaLimitedContent.

Record paywall_bypass : Type := { last_html : option string }.

(** Check (1): the first selector with a match. *)
Definition selector_hit (soup : node) : option string :=
  List.find (fun sel => match select_one sel soup with Some _ => true | None => false end)
    PAYWALL_SELECTORS.

(** Check (2): the first indicator in [soup.get_text().lower()]. *)
Definition indicator_hit (soup : node) : option string :=
  let text := Py.lower (get_text soup) in
  List.find (fun i => Py.contains i text) PAYWALL_INDICATORS.

(** [soup.find('article') or soup.find('main')] *)
Definition limited_region (soup : node) : option node :=
  match find "article" soup with Some a => Some a | None => find "main" soup end.

Section Detect.

(** [BeautifulSoup(html, 'html.parser')] on markup it accepts; on markup
    it rejects [detect_paywall] raises, a case this section leaves out. *)
Variable bs_parse : string -> node.

(** [PaywallBypass.detect_paywall]: the new state, the log lines written
    and the verdict. *)
Definition detect_paywall (self : paywall_bypass) (html : string)
  : paywall_bypass * list log_line * bool :=
  if negb (Py.truthy html) then (self, [], false)
  else
    let self' := {| last_html := Some html |} in
    let soup := bs_parse html in
    match selector_hit soup with
    | Some sel => (self', [ViaSelector sel], true)
    | None =>
    match indicator_hit soup with
    | Some ind => (self', [ViaIndicator ind], true)
    | None =>
    match limited_region soup with
    | Some article =>
        if (List.length (find_all ["p"] article) <=? 3)%nat
        then (self', [ViaLimitedContent], true)
        else (self', [], false)
    | None => (self', [], false)
    end end end.

End Detect.

End Bypass.

(** ** Concrete documents *)
Module Samples.
Import Html.

Definition el (t : string) (kids : list node) : node := Elem t [] kids.
Definition par (s : string) : node := el "p" [Text s].

(** [BeautifulSoup(s, 'html.parser')] on the documents below, read off a
    table; a string without markup parses to one NavigableString. *)
Definition parse_table (tbl : list (string * node)) (s : string) : node :=
  match List.find (fun kv => String.eqb (fst kv) s) tbl with
  | Some (_, t) => t
  | None => document [Text s]
  end.

(** A parser that accepts every document. *)
Definition accepts_all (s : string) : option Exn.exn := None.

(** Scenario A of the spec. *)
Definition html_A : string :=
  "<html><body><article><h1>T</h1><p>One.</p><p>Two.</p><p>Three.</p><p>Four.</p></article></body></html>".
Definition tree_A : node :=
  document [el "html" [el "body" [el "article"
    [el "h1" [Text "T"]; par "One."; par "Two."; par "Three."; par "Four."]]]].
(** A readability summary of [html_A]. *)
Definition summary_A : string :=
  "<div><article><h1>T</h1><p>One.</p><p>Two.</p><p>Three.</p><p>Four.</p></article></div>".
Definition summary_tree_A : node :=
  document [el "div" [el "article"
    [el "h1" [Text "T"]; par "One."; par "Two."; par "Three."; par "Four."]]].

(** readability's summary of the documents below, read off a table;
    another input makes it raise. *)
Definition readability_table (tbl : list (string * string)) (h : string) : Exn.result string :=
  match List.find (fun kv => String.eqb (fst kv) h) tbl with
  | Some (_, v) => Exn.Ok v
  | None => Exn.Exc (Exn.LibraryError "Unparseable")
  end.

Definition parse_A : string -> node := parse_table [(html_A, tree_A); (summary_A, summary_tree_A)].
Definition readability_summary_A : string -> Exn.result string := readability_table [(html_A, summary_A)].
Definition readability_title_A : string -> Exn.result string := readability_table [(html_A, "T")].

(** Site navigation with a "Subscribe" link and no article element. *)
Definition nav_doc : node :=
  document [el "html" [el "body"
    [el "nav" [Elem "a" [("href", "/subscribe")] [Text "Subscribe"]];
     el "div" [par "Today in the city council."]]]].

(** Scenario B of the spec. *)
Definition paywall_doc : node :=
  document [el "html" [el "body"
    [Elem "div" [("class", "paywall-message")] [Text "Subscribe to continue"];
     Elem "div" [("class", "article-preview")] [par "Preview of the article content..."]]]].

(** A two-paragraph article with no paywall marker. *)
Definition html_short : string :=
  "<html><body><article><h1>T</h1><p>One.</p><p>Two.</p></article></body></html>".
Definition tree_short : node :=
  document [el "html" [el "body" [el "article" [el "h1" [Text "T"]; par "One."; par "Two."]]]].
Definition summary_short : string := "<div><article><h1>T</h1><p>One.</p><p>Two.</p></article></div>".
Definition summary_tree_short : node :=
  document [el "div" [el "article" [el "h1" [Text "T"]; par "One."; par "Two."]]].

(** A four-paragraph article with a "Log in" button. *)
Definition html_login : string :=
  "<html><body><article><p>One.</p><p>Two.</p><p>Three.</p><p>Four.</p><button>Log in</button></article></body></html>".
Definition tree_login : node :=
  document [el "html" [el "body" [el "article"
    [par "One."; par "Two."; par "Three."; par "Four."; el "button" [Text "Log in"]]]]].

Definition parse_P : string -> node :=
  parse_table [(html_short, tree_short); (summary_short, summary_tree_short); (html_login, tree_login)].
Definition readability_summary_P : string -> Exn.result string :=
  readability_table [(html_short, summary_short)].
Definition readability_title_P : string -> Exn.result string :=
  readability_table [(html_short, "T")].

Definition bypass0 : Bypass.paywall_bypass := {| Bypass.last_html := None |}.

(** Scenario E of the spec: a content region of 10 characters. *)
Definition html_E : string := "<html><body><article><p>0123456789</p></article></body></html>".
Definition tree_E : node := document [el "html" [el "body" [el "article" [par "0123456789"]]]].
Definition summary_E : string := "<div><article><p>0123456789</p></article></div>".
Definition summary_tree_E : node := document [el "div" [el "article" [par "0123456789"]]].
Definition parse_E : string -> node := parse_table [(html_E, tree_E); (summary_E, summary_tree_E)].
Definition readability_summary_E : string -> Exn.result string := readability_table [(html_E, summary_E)].
Definition readability_title_E : string -> Exn.result string := readability_table [(html_E, "")].

(** Two article elements. *)
Definition two_articles : node :=
  document [el "html" [el "body"
    [el "article" [par "First article content."]; el "article" [par "Second article content."]]]].

(** A page whose title, h1 and time are empty, with an author meta and a
    stylesheet link. *)
Definition meta_doc : node :=
  document [el "html"
    [el "head" [el "title" [Text "  "];
                Elem "meta" [("name", "author"); ("content", "Jane Doe")] [];
                Elem "link" [("rel", "stylesheet"); ("href", "/s.css")] []];
     el "body" [el "h1" []; Elem "time" [] [Text "May"]; par "Text."]]].

(** A main element and no article. *)
Definition main_doc : node :=
  document [el "html" [el "body" [el "main" [par "Body of the story."]]]].

(** An empty article element before a main element with text. *)
Definition empty_article_main : node :=
  document [el "html" [el "body" [el "article" []; el "main" [par "Body of the story."]]]].

Definition extractor_A : Extractors.extractor :=
  {| Extractors.min_content_length := 100; Extractors.test_mode := false;
     Extractors._test_content := None |}.

Definition result_A : Extractors.extraction :=
  {| Extractors.content := "T One. Two. Three. Four.";
     Extractors.meta := {| Extractors.md_title := "T"; Extractors.md_author := "";
                           Extractors.md_date := ""; Extractors.md_canonical_url := "" |};
     Extractors.word_count := 5;
     Extractors.has_paywall := false |}.

(** A five-paragraph article followed by a newsletter footer. *)
Definition html_newsletter : string :=
  "<article><p>One.</p><p>Two.</p><p>Three.</p><p>Four.</p><p>Five.</p></article><footer><p>Subscribe to our newsletter.</p></footer>".
Definition newsletter_doc : node :=
  document [el "article" [par "One."; par "Two."; par "Three."; par "Four."; par "Five."];
            el "footer" [par "Subscribe to our newsletter."]].
Definition parse_N : string -> node := parse_table [(html_newsletter, newsletter_doc)].

(** Links: one to a story, one without href, one to a plain page. *)
Definition links_doc : node :=
  document [Elem "a" [("href", "/news/story-1.html")] [Text "Story"];
            el "a" [Text "No link"];
            Elem "a" [("href", "/about")] [Text "About"]].

(** [urljoin] for a base without a path and a root-relative href. *)
Definition urljoin_root (base href : string) : string := base ++ href.

(** A page with a script, and a style sheet nested inside a div. *)
Definition scripted_doc : node :=
  document [el "body" [el "script" [Special "script" "var x = 1;"]; par "Text.";
                       el "div" [el "style" [Special "style" "p { }"]; par "More."]]].

End Samples.

(** ** The properties the spec states, as predicates *)
Module Spec.

(** Whitespace-normalized text: no line break at all (so no blank lines),
    no whitespace other than the plain space, and nothing for [strip]
    to remove at either end. *)
Definition ws_normalized (s : string) : Prop :=
  Py.all_chars (fun c => negb (Py.is_line_break c)) s = true /\
  Py.all_chars (fun c => negb (Py.is_space c) || Ascii.eqb c " "%char) s = true /\
  Py.lstrip s = s /\ Py.rstrip s = s.

(** [" " + w1 + " " + w2 ...]: the words each preceded by one space. *)
Fixpoint spaced (ws : list string) : string :=
  match ws with
  | [] => EmptyString
  | w :: r => String " "%char (w ++ spaced r)
  end.

(** The last character of [s] is whitespace. *)
Fixpoint ends_space (s : string) : bool :=
  match s with
  | EmptyString => false
  | String c EmptyString => Py.is_space c
  | String _ s' => ends_space s'
  end.

(** The longest prefix of [s] made of URL characters. *)
Fixpoint url_head (s : string) : string :=
  match s with
  | EmptyString => EmptyString
  | String c s' => if Extractors.url_char c then String c (url_head s') else EmptyString
  end.

(** A check that found something. *)
Definition fired {A} (o : option A) : bool := match o with Some _ => true | None => false end.

(** The value an element gives through its attribute [k]: "" when the
    attribute is absent. *)
Definition attr_value (k : string) (n : Html.node) : string :=
  match Html.get_attr k n with Some v => v | None => EmptyString end.

(** A metadata field is unresolved in [soup] when every element of the
    tree that is a source for it ([src]) gives the empty string ([val]). *)
Definition unresolved (soup : Html.node) (src : Html.node -> bool)
  (val : Html.node -> string) : Prop :=
  forall n, In n (Html.descendants soup) -> src n = true -> val n = EmptyString.

Definition unresolvedb (soup : Html.node) (src : Html.node -> bool)
  (val : Html.node -> string) : bool :=
  forallb (fun n => negb (src n) || String.eqb (val n) EmptyString) (Html.descendants soup).

(** A meta element whose [name] or [property] is one of [names]. *)
Definition meta_named (names : list string) (n : Html.node) : bool :=
  existsb (fun nm => Extractors.meta_with "name" nm n || Extractors.meta_with "property" nm n)
    names.

End Spec.

(** * Properties *)

(** ** Facts about the string primitives *)
Module PyFacts.
Import Py.

Ltac split_andb :=
  repeat match goal with
         | H : _ && _ = true |- _ => apply andb_prop in H; destruct H
         end.

Lemma all_chars_mono (P Q : ascii -> bool) s :
  (forall c, P c = true -> Q c = true) -> all_chars P s = true -> all_chars Q s = true.
Proof.
  intros HPQ; induction s as [|c s IH]; simpl; auto.
  intros H; split_andb; rewrite (HPQ c), IH; auto.
Qed.

Lemma all_chars_app P s1 s2 :
  all_chars P (s1 ++ s2) = all_chars P s1 && all_chars P s2.
Proof.
  induction s1 as [|c s1 IH]; simpl; auto.
  rewrite IH; apply andb_assoc.
Qed.

Lemma all_chars_concat P sep ws :
  all_chars P sep = true -> Forall (fun w => all_chars P w = true) ws ->
  all_chars P (String.concat sep ws) = true.
Proof.
  intros Hsep Hws; induction Hws as [|w ws Hw Hws IH]; simpl; auto.
  destruct ws as [|w' ws']; auto.
  rewrite !all_chars_app, Hw, Hsep, IH; reflexivity.
Qed.

Lemma all_chars_filter P keep s :
  all_chars P s = true -> all_chars P (filter_chars keep s) = true.
Proof.
  induction s as [|c s IH]; simpl; auto.
  intros H; split_andb; destruct (keep c); simpl; rewrite ?H; auto.
Qed.

Lemma all_chars_drop P n s :
  all_chars P s = true -> all_chars P (drop n s) = true.
Proof.
  revert s; induction n as [|n IH]; intros [|c s] H; simpl in *; auto.
  split_andb; auto.
Qed.

Lemma all_chars_lstrip P s : all_chars P s = true -> all_chars P (lstrip s) = true.
Proof.
  induction s as [|c s IH]; simpl; auto.
  intros H; destruct (is_space c); auto.
  split_andb; auto.
Qed.

Lemma all_chars_rstrip P s : all_chars P s = true -> all_chars P (rstrip s) = true.
Proof.
  induction s as [|c s IH]; simpl; auto.
  intros H; split_andb.
  destruct (is_space c && String.eqb (rstrip s) EmptyString); simpl; auto.
  rewrite H, IH; auto.
Qed.

Lemma all_chars_strip P s : all_chars P s = true -> all_chars P (strip s) = true.
Proof. intros H; apply all_chars_rstrip, all_chars_lstrip, H. Qed.

(** The words of [str.split()] hold no whitespace. *)
Lemma split_go_no_space s :
  all_chars not_space (fst (split_go s)) = true /\
  Forall (fun w => all_chars not_space w = true) (snd (split_go s)).
Proof.
  induction s as [|c s [IH1 IH2]]; simpl; [split; [reflexivity|constructor]|].
  destruct (split_go s) as [w ws]; simpl in *.
  destruct (is_space c) eqn:Hc; simpl.
  - split; [reflexivity|]. destruct (String.eqb w EmptyString); auto.
  - unfold not_space at 1; rewrite Hc; simpl; split; auto.
Qed.

Lemma split_no_space s : Forall (fun w => all_chars not_space w = true) (split s).
Proof.
  unfold split; pose proof (split_go_no_space s) as [H1 H2].
  destruct (split_go s) as [w ws]; simpl in *.
  destruct (String.eqb w EmptyString); auto.
Qed.

Lemma rstrip_idem s : rstrip (rstrip s) = rstrip s.
Proof.
  induction s as [|c s IH]; simpl; auto.
  destruct (is_space c && String.eqb (rstrip s) EmptyString) eqn:E; simpl; auto.
  rewrite IH, E; reflexivity.
Qed.

Lemma lstrip_head s :
  lstrip s = EmptyString \/ exists c r, lstrip s = String c r /\ is_space c = false.
Proof.
  induction s as [|c s IH]; simpl; auto.
  destruct (is_space c) eqn:Hc; auto.
  right; exists c, s; auto.
Qed.

Lemma lstrip_strip s : lstrip (strip s) = strip s.
Proof.
  unfold strip; destruct (lstrip_head s) as [-> | (c & r & -> & Hc)]; simpl; auto.
  rewrite Hc; simpl; rewrite Hc; reflexivity.
Qed.

Lemma rstrip_strip s : rstrip (strip s) = strip s.
Proof. apply rstrip_idem. Qed.

Lemma prefix_lower p s : String.prefix p s = true -> String.prefix (lower p) (lower s) = true.
Proof.
  revert s; induction p as [|a p IH]; intros [|b s]; simpl; auto; try discriminate.
  destruct (ascii_dec a b) as [->|]; [|discriminate].
  intros H; destruct (ascii_dec (lower_char b) (lower_char b)); [auto|congruence].
Qed.

Lemma contains_eq p s :
  contains p s =
  String.prefix p s || match s with EmptyString => false | String _ h => contains p h end.
Proof. destruct s; reflexivity. Qed.

Lemma contains_lower p s : contains p s = true -> contains (lower p) (lower s) = true.
Proof.
  induction s as [|c s IH]; intros H; rewrite contains_eq in H.
  - apply orb_true_iff in H as [H|H]; [|discriminate].
    apply prefix_lower in H; rewrite contains_eq, H; reflexivity.
  - apply orb_true_iff in H as [H|H].
    + apply prefix_lower in H; rewrite contains_eq, H; reflexivity.
    + change (lower (String c s)) with (String (lower_char c) (lower s)).
      rewrite contains_eq, (IH H), orb_true_r; reflexivity.
Qed.

Lemma contains_cons p c s : contains p s = true -> contains p (String c s) = true.
Proof. intros H; simpl; rewrite H, orb_true_r; reflexivity. Qed.

Lemma prefix_contains p s : String.prefix p s = true -> contains p s = true.
Proof. destruct s; simpl; intros ->; reflexivity. Qed.

(** A needle without whitespace that is a prefix of [s] is a prefix of the
    first word of [s]. *)
Lemma prefix_first_word p s :
  all_chars not_space p = true -> String.prefix p s = true ->
  String.prefix p (fst (split_go s)) = true.
Proof.
  revert s; induction p as [|a p IH]; intros s Hp H.
  - destruct (fst (split_go s)); reflexivity.
  - destruct s as [|b s]; [discriminate|].
    simpl in Hp, H; split_andb.
    destruct (ascii_dec a b) as [Heq|]; [subst b|discriminate].
    pose proof (IH s H1 H) as IH'; simpl.
    destruct (split_go s) as [w ws]; simpl in *.
    unfold not_space in H0; destruct (is_space a); [discriminate|]; simpl.
    destruct (ascii_dec a a); [exact IH'|congruence].
Qed.

(** A non-empty needle without whitespace found in [s] lies inside one of
    the words of [s.split()]. *)
Lemma contains_split_word p s :
  p <> EmptyString -> all_chars not_space p = true -> contains p s = true ->
  exists w, In w (split s) /\ contains p w = true.
Proof.
  intros Hne Hp; induction s as [|c s IH]; intros H.
  - destruct p; [congruence|]; simpl in H; discriminate.
  - rewrite contains_eq in H; apply orb_true_iff in H as [H|H].
    + destruct p as [|a p]; [congruence|].
      pose proof (prefix_first_word _ _ Hp H) as Hw.
      simpl in Hp; split_andb.
      simpl in H; destruct (ascii_dec a c) as [Heq|]; [subst c|discriminate].
      unfold split; simpl in Hw |- *.
      destruct (split_go s) as [w ws]; unfold not_space in H0.
      destruct (is_space a); [discriminate|]; simpl in *.
      exists (String a w); split; [left; reflexivity|].
      apply prefix_contains; exact Hw.
    + destruct (IH H) as (w & Hin & Hw).
      unfold split in Hin |- *; simpl.
      destruct (split_go s) as [w0 ws0].
      destruct (is_space c); simpl.
      * exists w; split; [exact Hin|exact Hw].
      * destruct (String.eqb w0 EmptyString) eqn:E.
        -- exists w; split; [right; exact Hin|exact Hw].
        -- destruct Hin as [<-|Hin].
           ++ exists (String c w0); split; [left; reflexivity|].
              apply contains_cons; exact Hw.
           ++ exists w; split; [right; exact Hin|exact Hw].
Qed.

End PyFacts.

(** ** Facts about the extractors' cleaner *)
Module CleanFacts.
Import Py PyFacts Extractors.

Lemma all_chars_url_run P s : all_chars P s = true -> all_chars P (url_run s) = true.
Proof.
  induction s as [|c s IH]; simpl; auto.
  intros H; destruct (url_char c); simpl; auto.
  split_andb; auto.
Qed.

Lemma all_chars_url_match P s rest :
  url_match s = Some rest -> all_chars P s = true -> all_chars P rest = true.
Proof.
  unfold url_match; cbv zeta; intros Hm Hs.
  destruct (String.prefix "https://" s); [|destruct (String.prefix "http://" s)];
    try discriminate.
  - pose proof (all_chars_drop P 8 s Hs) as Hd.
    destruct (drop 8 s) as [|c r]; [discriminate|].
    destruct (url_char c); [|discriminate].
    injection Hm as <-; simpl in Hd; split_andb; apply all_chars_url_run; auto.
  - pose proof (all_chars_drop P 7 s Hs) as Hd.
    destruct (drop 7 s) as [|c r]; [discriminate|].
    destruct (url_char c); [|discriminate].
    injection Hm as <-; simpl in Hd; split_andb; apply all_chars_url_run; auto.
Qed.

Lemma all_chars_url_sub P s : all_chars P s = true -> all_chars P (url_sub s) = true.
Proof.
  unfold url_sub; generalize (String.length s) as f; intros f; revert s.
  induction f as [|f IH]; intros s Hs; simpl; auto.
  destruct s as [|c s']; auto.
  destruct (url_match (String c s')) as [rest|] eqn:Hm.
  - apply IH; eapply all_chars_url_match; eauto.
  - simpl in Hs |- *; split_andb; rewrite H, IH; auto.
Qed.

Lemma line_break_space c : is_line_break c = true -> is_space c = true.
Proof.
  destruct c as [[] [] [] [] [] [] [] []]; vm_compute; intros H;
    first [reflexivity | discriminate H].
Qed.

(** [_clean_content] always yields whitespace-normalized text. *)
Lemma clean_content_normalized bs_parse s : Spec.ws_normalized (_clean_content bs_parse s).
Proof.
  set (Q := fun c => negb (is_space c) || Ascii.eqb c " "%char).
  assert (HQ : all_chars Q (_clean_content bs_parse s) = true).
  { unfold _clean_content; cbv zeta.
    apply all_chars_strip, all_chars_filter, all_chars_url_sub.
    apply all_chars_concat; [reflexivity|].
    eapply Forall_impl; [|apply split_no_space].
    intros w Hw; eapply all_chars_mono; [|exact Hw].
    intros c Hc; unfold Q; unfold not_space in Hc; rewrite Hc; reflexivity. }
  split; [|split; [exact HQ|]].
  - eapply all_chars_mono; [|exact HQ].
    intros c; unfold Q; destruct (is_line_break c) eqn:Hl; auto.
    rewrite (line_break_space c Hl); simpl.
    destruct (Ascii.eqb_spec c " "%char) as [->|]; [discriminate|auto].
  - unfold _clean_content; cbv zeta; split; [apply lstrip_strip|apply rstrip_strip].
Qed.

(** The paywall verdict of the extractors, check by check. *)
Lemma detect_paywall_checks soup :
  _detect_paywall soup = class_check soup || text_check soup || button_check soup.
Proof.
  unfold _detect_paywall.
  destruct (class_check soup), (text_check soup), (button_check soup); reflexivity.
Qed.

(** An element whose [class] value contains "paywall" is found by the
    class check. *)
Lemma class_check_paywall soup e v :
  In e (Html.descendants soup) -> Html.get_attr "class" e = Some v ->
  contains "paywall" v = true -> class_check soup = true.
Proof.
  intros Hin Hv Hc; unfold class_check; apply existsb_exists.
  exists e; split; [exact Hin|].
  unfold class_matches, attr_matches, Html.get_tokens; rewrite Hv; simpl.
  destruct (contains_split_word "paywall" v) as (w & Hw & Hpw);
    [discriminate|reflexivity|exact Hc|].
  apply orb_true_iff; left; apply existsb_exists; exists w; split; [exact Hw|].
  unfold paywall_class_fn; apply andb_true_iff; split.
  - destruct w; [discriminate|reflexivity].
  - apply existsb_exists; exists "paywall"; split; [left; reflexivity|].
    apply (contains_lower "paywall" w Hpw).
Qed.

Lemma find_none_all {A} (f : A -> bool) l :
  (forall x, In x l -> f x = false) -> List.find f l = None.
Proof.
  induction l as [|a l IH]; simpl; auto.
  intros H; rewrite (H a) by auto; apply IH; auto.
Qed.

Lemma filter_none_all {A} (f : A -> bool) l :
  (forall x, In x l -> f x = false) -> filter f l = [].
Proof.
  induction l as [|a l IH]; simpl; auto.
  intros H; rewrite (H a) by auto; apply IH; auto.
Qed.

Lemma find_p_some p soup m :
  Html.find_p p soup = Some m -> In m (Html.descendants soup) /\ p m = true.
Proof. unfold Html.find_p; apply List.find_some. Qed.

Lemma unresolvedb_sound soup src val :
  Spec.unresolvedb soup src val = true -> Spec.unresolved soup src val.
Proof.
  unfold Spec.unresolvedb, Spec.unresolved; intros H n Hin Hs.
  rewrite forallb_forall in H; specialize (H n Hin); rewrite Hs in H.
  apply String.eqb_eq; exact H.
Qed.

Lemma truthy_attr_unresolved soup src k :
  Spec.unresolved soup src (Spec.attr_value k) -> truthy_attr k (Html.find_p src soup) = None.
Proof.
  intros H; destruct (Html.find_p src soup) as [m|] eqn:E; [|reflexivity].
  apply find_p_some in E as [Hin Hs]; specialize (H m Hin Hs).
  unfold Spec.attr_value in H; simpl; destruct (Html.get_attr k m); [subst; reflexivity|reflexivity].
Qed.

Lemma find_unresolved soup src val :
  Spec.unresolved soup src val ->
  match Html.find_p src soup with Some m => val m | None => EmptyString end = EmptyString.
Proof.
  intros H; destruct (Html.find_p src soup) as [m|] eqn:E; [|reflexivity].
  apply find_p_some in E as [Hin Hs]; exact (H m Hin Hs).
Qed.

Lemma meta_named_cons nm names n :
  Spec.meta_named names n = true -> Spec.meta_named (nm :: names) n = true.
Proof. unfold Spec.meta_named; simpl; intros ->; apply orb_true_r. Qed.

Lemma first_meta_unresolved soup names :
  Spec.unresolved soup (Spec.meta_named names) (Spec.attr_value "content") ->
  OldExtractor.first_meta soup names = None.
Proof.
  induction names as [|nm names IH]; intros H; [reflexivity|]; simpl.
  assert (Hl : OldExtractor.meta_lookup soup nm = None).
  { unfold OldExtractor.meta_lookup.
    destruct (Html.find_p (meta_with "name" nm) soup) as [m|] eqn:E1.
    - rewrite <- E1; apply truthy_attr_unresolved.
      intros n Hin Hs; apply H; [exact Hin|].
      unfold Spec.meta_named; simpl; rewrite Hs; reflexivity.
    - apply truthy_attr_unresolved.
      intros n Hin Hs; apply H; [exact Hin|].
      unfold Spec.meta_named; simpl; rewrite Hs, orb_true_r; reflexivity. }
  rewrite Hl; apply IH.
  intros n Hin Hs; apply H; [exact Hin|apply meta_named_cons; exact Hs].
Qed.

End CleanFacts.

(** ** Claims *)
Module Claims.
Import Html Exn Samples.

(** C2: every result [Extractors.extract_content] produces itself (the
    test hook returns the dict injected by [set_test_content] unchanged)
    has [word_count] equal to the number of whitespace-separated tokens of
    [content], and [content] is whitespace-normalized: no line breaks, so
    no runs of blank lines, and no leading or trailing whitespace. *)
Theorem extract_content_word_count_normalized
  bs_parse bs_reject readability_summary readability_title self html r :
  Extractors.extract_content bs_parse bs_reject readability_summary readability_title self html = Ok r ->
  (Extractors.test_mode self = true /\ Extractors._test_content self = Some r) \/
  (Extractors.word_count r = List.length (Py.split (Extractors.content r)) /\
   Spec.ws_normalized (Extractors.content r)).
Proof.
  unfold Extractors.extract_content; intros H.
  destruct (Extractors.test_mode self), (Extractors._test_content self) as [tc|];
    try (injection H as <-; left; auto).
  all: right; destruct (bs_reject html) as [e|]; simpl in H; [discriminate|];
    destruct (readability_summary html) as [summary|e]; simpl in H; [|discriminate];
    lazymatch type of H with
    | context [match ?o with Some _ => _ | None => _ end] => destruct o as [e|] end;
    [discriminate|];
    destruct (readability_title html) as [title|e']; simpl in H; [|discriminate];
    injection H as <-; simpl; split; [reflexivity|apply CleanFacts.clean_content_normalized].
Qed.

Lemma extract_content_word_count_normalized_witness :
  Extractors.extract_content parse_A accepts_all readability_summary_A readability_title_A
    extractor_A html_A = Ok result_A /\
  ((Extractors.test_mode extractor_A = true /\ Extractors._test_content extractor_A = Some result_A) \/
   (Extractors.word_count result_A = List.length (Py.split (Extractors.content result_A)) /\
    Spec.ws_normalized (Extractors.content result_A))).
Proof.
  split; [vm_compute; reflexivity|].
  apply (extract_content_word_count_normalized parse_A accepts_all readability_summary_A
           readability_title_A extractor_A html_A result_A).
  vm_compute; reflexivity.
Defined.

(** C4: any element of the tree whose [class] value contains "paywall"
    makes [_detect_paywall] answer true, whatever the rest of the
    document (its length included). *)
Theorem detect_paywall_class_paywall soup e v :
  In e (descendants soup) -> get_attr "class" e = Some v ->
  Py.contains "paywall" v = true ->
  Extractors._detect_paywall soup = true.
Proof.
  intros Hin Hv Hc.
  rewrite CleanFacts.detect_paywall_checks, (CleanFacts.class_check_paywall soup e v Hin Hv Hc).
  reflexivity.
Qed.

Lemma detect_paywall_class_paywall_witness :
  (In (Elem "div" [("class", "paywall-message")] [Text "Subscribe to continue"])
      (descendants paywall_doc) /\
   Py.contains "paywall" "paywall-message" = true) /\
  Extractors._detect_paywall paywall_doc = true.
Proof.
  split; [split; [simpl; auto 10 | reflexivity]|].
  apply (detect_paywall_class_paywall paywall_doc
           (Elem "div" [("class", "paywall-message")] [Text "Subscribe to continue"])
           "paywall-message").
  - simpl; auto 10.
  - reflexivity.
  - reflexivity.
Defined.

(** C9: [_extract_metadata] subscripts the list [CONTENT_SELECTORS] with
    its string [field] and raises TypeError for every tree and field; so
    [_parse_article], which calls it for "author", never returns a
    value. *)
Theorem extract_metadata_always_type_error :
  (forall soup field,
     Extractors._extract_metadata soup field =
     Exc (TypeError "list indices must be integers or slices, not str")) /\
  (forall bs_parse bs_reject readability_summary readability_title urljoin html url,
     exists e, Extractors._parse_article bs_parse bs_reject readability_summary readability_title
                 urljoin html url = Exc e).
Proof.
  split.
  - intros soup field; reflexivity.
  - intros bs_parse bs_reject rs rt urljoin html url; unfold Extractors._parse_article.
    destruct (bs_reject html) as [e|]; [eauto|].
    destruct (rs html) as [summary|e]; simpl; [|eauto].
    destruct (Py.truthy (Extractors._extract_title (bs_parse html))); simpl; [eauto|].
    destruct (rt html) as [t|e]; simpl; eauto.
Qed.

(** C10: with no article element, the button check of [_detect_paywall]
    looks at every button and link of the document, so one whose
    lower-cased text holds "subscribe", "sign in", "log in" or "register"
    (a navigation link, say) makes the page paywalled. *)
Theorem detect_paywall_no_article_any_link soup b w :
  find "article" soup = None ->
  In b (find_all ["button"; "a"] soup) ->
  In w Extractors.action_words ->
  Py.contains w (Py.lower (get_text b)) = true ->
  Extractors._detect_paywall soup = true.
Proof.
  intros Hart Hb Hw Hc.
  rewrite CleanFacts.detect_paywall_checks.
  assert (Hbtn : Extractors.button_check soup = true).
  { unfold Extractors.button_check, Extractors.button_scope; rewrite Hart.
    apply existsb_exists; exists b; split; [exact Hb|].
    unfold Extractors.action_text; apply existsb_exists; exists w; auto. }
  rewrite Hbtn, !orb_true_r; reflexivity.
Qed.

Lemma detect_paywall_no_article_any_link_witness :
  (find "article" nav_doc = None /\
   In (Elem "a" [("href", "/subscribe")] [Text "Subscribe"]) (find_all ["button"; "a"] nav_doc) /\
   Py.contains "subscribe" (Py.lower "Subscribe") = true) /\
  Extractors._detect_paywall nav_doc = true.
Proof.
  split; [split; [reflexivity|split; [simpl; auto|reflexivity]]|].
  apply (detect_paywall_no_article_any_link nav_doc
           (Elem "a" [("href", "/subscribe")] [Text "Subscribe"]) "subscribe").
  - reflexivity.
  - simpl; auto.
  - simpl; auto.
  - reflexivity.
Defined.

(** C1 (corrected): the two detectors each run three of the four checks in
    a fixed order and stop at the first positive one.  [_detect_paywall]
    (the pipeline's [has_paywall]) is exactly checks (1)-(3) and has no
    short-content check; [PaywallBypass.detect_paywall] is checks (1), (2)
    and the short-content check (4), has no action-button check, and logs
    "limited content" only when (1) and (2) both came out negative. *)
Theorem paywall_checks_in_order :
  (forall soup,
     Extractors._detect_paywall soup =
     Extractors.class_check soup || Extractors.text_check soup || Extractors.button_check soup) /\
  (forall bs_parse self html,
     In Bypass.ViaLimitedContent (snd (fst (Bypass.detect_paywall bs_parse self html))) ->
     Bypass.selector_hit (bs_parse html) = None /\ Bypass.indicator_hit (bs_parse html) = None) /\
  (forall bs_parse self html,
     snd (Bypass.detect_paywall bs_parse self html) =
     Py.truthy html &&
     (Spec.fired (Bypass.selector_hit (bs_parse html)) ||
      Spec.fired (Bypass.indicator_hit (bs_parse html)) ||
      match Bypass.limited_region (bs_parse html) with
      | Some a => (List.length (find_all ["p"] a) <=? 3)%nat
      | None => false
      end)).
Proof.
  split; [exact CleanFacts.detect_paywall_checks|split].
  - intros bs_parse self html; unfold Bypass.detect_paywall.
    destruct (Py.truthy html); simpl; [|tauto].
    destruct (Bypass.selector_hit (bs_parse html)); simpl; [intros [H|H]; [discriminate|contradiction]|].
    destruct (Bypass.indicator_hit (bs_parse html)); simpl; [intros [H|H]; [discriminate|contradiction]|].
    auto.
  - intros bs_parse self html; unfold Bypass.detect_paywall.
    destruct (Py.truthy html); simpl; [|reflexivity].
    destruct (Bypass.selector_hit (bs_parse html)); simpl; [reflexivity|].
    destruct (Bypass.indicator_hit (bs_parse html)); simpl; [reflexivity|].
    destruct (Bypass.limited_region (bs_parse html)) as [a|]; [|reflexivity].
    destruct (List.length (find_all ["p"] a) <=? 3)%nat; reflexivity.
Qed.

Lemma paywall_checks_in_order_witness :
  In Bypass.ViaLimitedContent (snd (fst (Bypass.detect_paywall parse_P bypass0 html_short))) /\
  (Bypass.selector_hit (parse_P html_short) = None /\ Bypass.indicator_hit (parse_P html_short) = None).
Proof.
  assert (H : In Bypass.ViaLimitedContent (snd (fst (Bypass.detect_paywall parse_P bypass0 html_short))))
    by (vm_compute; left; reflexivity).
  split; [exact H|].
  apply (proj1 (proj2 paywall_checks_in_order) parse_P bypass0 html_short); exact H.
Defined.

(** C1 fails as stated: on a two-paragraph article with no marker the
    short-content check (4) would fire but [_detect_paywall] answers
    open; on a four-paragraph article with a "Log in" button the
    action-button check (3) would fire but [detect_paywall] answers
    open. *)
Lemma paywall_checks_counterexample :
  (List.length (find_all ["p"] (Extractors.button_scope tree_short)) <=? 3)%nat = true /\
  Extractors._detect_paywall tree_short = false /\
  Extractors.button_check tree_login = true /\
  snd (Bypass.detect_paywall parse_P bypass0 html_login) = false.
Proof. vm_compute; repeat split. Qed.

(** C3 (corrected): the short-content rule lives in
    [PaywallBypass.detect_paywall] only: for any non-empty html whose first
    article (or, without one, first main) element holds at most three
    [<p>] elements, it answers paywalled. *)
Theorem bypass_short_content_paywalled bs_parse self html region :
  Py.truthy html = true ->
  Bypass.limited_region (bs_parse html) = Some region ->
  (List.length (find_all ["p"] region) <= 3)%nat ->
  snd (Bypass.detect_paywall bs_parse self html) = true.
Proof.
  intros Ht Hr Hl; unfold Bypass.detect_paywall; rewrite Ht; simpl.
  destruct (Bypass.selector_hit (bs_parse html)); [reflexivity|].
  destruct (Bypass.indicator_hit (bs_parse html)); [reflexivity|].
  rewrite Hr; apply Nat.leb_le in Hl; rewrite Hl; reflexivity.
Qed.

Lemma bypass_short_content_paywalled_witness :
  (Py.truthy html_short = true /\
   Bypass.limited_region (parse_P html_short) =
     Some (el "article" [el "h1" [Text "T"]; par "One."; par "Two."]) /\
   (List.length (find_all ["p"] (el "article" [el "h1" [Text "T"]; par "One."; par "Two."])) <= 3)%nat) /\
  snd (Bypass.detect_paywall parse_P bypass0 html_short) = true.
Proof.
  split; [split; [reflexivity|split; [reflexivity|simpl; lia]]|].
  apply (bypass_short_content_paywalled parse_P bypass0 html_short
           (el "article" [el "h1" [Text "T"]; par "One."; par "Two."])).
  - reflexivity.
  - reflexivity.
  - simpl; lia.
Defined.

(** C3 fails as stated: a two-paragraph article with no paywall class,
    selector or phrase gets [has_paywall = false] from the pipeline. *)
Lemma short_content_not_paywalled :
  (List.length (find_all ["p"] (Extractors.button_scope tree_short)) <= 3)%nat /\
  Extractors.class_check tree_short = false /\ Extractors.text_check tree_short = false /\
  Bypass.selector_hit tree_short = None /\ Bypass.indicator_hit tree_short = None /\
  match Extractors.extract_content parse_P accepts_all readability_summary_P readability_title_P
          extractor_A html_short with
  | Ok r => Extractors.has_paywall r = false
  | Exc _ => False
  end.
Proof. split; [simpl; lia|]. vm_compute; repeat split. Qed.

(** C5 (corrected): only the older [ContentExtractor.extract_content]
    enforces the minimum.  On non-empty html the parser runs first, and
    raises whatever it raises on markup it rejects; on markup it accepts,
    the function raises exactly when the cleaned content is shorter than
    [min_content_length], and what it raises is then the length ValueError
    (there is no ContentTooShortError class).  The extractors pipeline
    raises nothing about length: once the parser accepts the page and the
    content it cleans and readability answers, it returns a result
    whatever the content's length. *)
Theorem min_length_enforcement :
  (forall bs_parse bs_reject min_len html now,
     Py.truthy html = true ->
     (forall e, bs_reject html = Some e ->
        OldExtractor.extract_content bs_parse bs_reject min_len html now = Exc e) /\
     (bs_reject html = None ->
      let c := OldExtractor.clean_content (OldExtractor._extract_main_content (bs_parse html)) in
      ((exists e, OldExtractor.extract_content bs_parse bs_reject min_len html now = Exc e) <->
       (Z.of_nat (String.length c) < min_len)%Z) /\
      (forall e, OldExtractor.extract_content bs_parse bs_reject min_len html now = Exc e ->
       e = ValueError (LengthBelowMinimum (Z.of_nat (String.length c)) min_len)))) /\
  (forall bs_parse bs_reject readability_summary readability_title self html summary title,
     bs_reject html = None ->
     readability_summary html = Ok summary -> readability_title html = Ok title ->
     bs_reject (Extractors.main_content
                  (decompose ["script"; "style"; "iframe"] (bs_parse html)) summary) = None ->
     exists r, Extractors.extract_content bs_parse bs_reject readability_summary
                 readability_title self html = Ok r).
Proof.
  split.
  - intros bs_parse bs_reject min_len html now Ht; unfold OldExtractor.extract_content.
    rewrite Ht; cbv beta iota delta [negb]; split.
    + intros e He; rewrite He; reflexivity.
    + intros Hr; rewrite Hr; cbv beta iota zeta.
      set (c := OldExtractor.clean_content (OldExtractor._extract_main_content (bs_parse html))).
      destruct (Z.ltb_spec (Z.of_nat (String.length c)) min_len) as [Hlt|Hge].
      * split; [split; [intros _; exact Hlt|intros _; eauto]|].
        intros e He; injection He as <-; reflexivity.
      * split; [split; [intros [e He]; discriminate|intros Hlt; lia]|].
        intros e He; discriminate.
  - intros bs_parse bs_reject rs rt self html summary title Hr Hs Ht Hc.
    unfold Extractors.extract_content.
    destruct (Extractors.test_mode self), (Extractors._test_content self); eauto;
      rewrite Hr, Hs; cbn [bind]; rewrite Hc, Ht; cbn [bind]; eauto.
Qed.

Lemma min_length_enforcement_witness :
  (exists r, Extractors.extract_content parse_E accepts_all readability_summary_E
               readability_title_E extractor_A html_E = Ok r) /\
  OldExtractor.extract_content parse_E accepts_all 100%Z html_E "2024-05-01T12:00:00" =
    Exc (ValueError (LengthBelowMinimum 10%Z 100%Z)).
Proof.
  split.
  - apply (proj2 min_length_enforcement parse_E accepts_all readability_summary_E
             readability_title_E extractor_A html_E summary_E ""); reflexivity.
  - destruct (proj1 min_length_enforcement parse_E accepts_all 100%Z html_E
                "2024-05-01T12:00:00" ltac:(reflexivity)) as [_ Hacc].
    destruct (Hacc eq_refl) as [[_ Hex] Herr].
    destruct (Hex ltac:(vm_compute; reflexivity)) as [e He].
    rewrite He, (Herr e He); vm_compute; reflexivity.
Defined.

(** C5 fails as stated: Scenario E (a 10-character content region,
    [min_content_length = 100]) returns a result from the extractors
    pipeline instead of failing. *)
Lemma scenario_E_returns :
  Extractors.min_content_length extractor_A = 100%Z /\
  match Extractors.extract_content parse_E accepts_all readability_summary_E readability_title_E
          extractor_A html_E with
  | Ok r => Extractors.content r = "0123456789"
  | Exc _ => False
  end.
Proof. vm_compute; split; reflexivity. Qed.

(** C6 (corrected): the older [extract_content] reads the clock into
    [extracted_at]; two calls on the same input agree on raising or not,
    on the error, on [content] and on [metadata], and may differ only in
    [extracted_at].  (The extractors pipeline has no clock input.) *)
Theorem old_extract_content_clock_only bs_parse bs_reject min_len html t1 t2 :
  match OldExtractor.extract_content bs_parse bs_reject min_len html t1,
        OldExtractor.extract_content bs_parse bs_reject min_len html t2 with
  | Ok r1, Ok r2 =>
      OldExtractor.content r1 = OldExtractor.content r2 /\
      OldExtractor.meta r1 = OldExtractor.meta r2 /\
      OldExtractor.extracted_at r1 = t1 /\ OldExtractor.extracted_at r2 = t2
  | Exc e1, Exc e2 => e1 = e2
  | _, _ => False
  end.
Proof.
  unfold OldExtractor.extract_content.
  destruct (negb (Py.truthy html)); [reflexivity|].
  destruct (bs_reject html) as [e|]; [reflexivity|]; cbv zeta.
  destruct (_ <? min_len)%Z; [reflexivity|]; simpl; auto.
Qed.

(** C6 fails as stated: the same html read one second apart gives two
    different results. *)
Lemma old_extract_content_not_idempotent :
  OldExtractor.extract_content parse_A accepts_all 10 html_A "2026-10-19T10:00:00"
  <> OldExtractor.extract_content parse_A accepts_all 10 html_A "2026-10-19T10:00:01".
Proof. vm_compute; intros H; discriminate H. Qed.

(** C7 (corrected): metadata extraction is total on a parsed tree, and
    each field it cannot resolve comes out empty.  A field is unresolved
    when every source the code consults for it gives the empty string.
    The extractors' helpers then return "" for the title, the author, the
    date and the canonical URL; the older [extract_metadata] returns ""
    for the title, the author and the description, but [None] for the
    date when no date meta tag has content (it has no canonical URL
    field). *)
Theorem metadata_unresolved_defaults soup :
  (Spec.unresolved soup (Extractors.meta_with "property" "og:title") (Spec.attr_value "content") ->
   Spec.unresolved soup (Extractors.meta_with "name" "twitter:title") (Spec.attr_value "content") ->
   Spec.unresolved soup (is_tag "h1") get_text_strip ->
   Spec.unresolved soup (is_tag "title") get_text_strip ->
   Extractors._extract_title soup = "") /\
  (Spec.unresolved soup (Extractors.meta_with "name" "author") (Spec.attr_value "content") ->
   Spec.unresolved soup (Extractors.meta_with "property" "article:author")
     (Spec.attr_value "content") ->
   Spec.unresolved soup (Extractors.class_matches Extractors.byline_re) get_text_strip ->
   Extractors._extract_author soup = "") /\
  (Spec.unresolved soup (fun n => is_tag "meta" n && Extractors.date_meta n)
     (Spec.attr_value "content") ->
   Spec.unresolved soup (is_tag "time") (Spec.attr_value "datetime") ->
   Extractors._extract_date soup = "") /\
  (Spec.unresolved soup Extractors.canonical_link (Spec.attr_value "href") ->
   Extractors._extract_canonical_url soup = "") /\
  (Spec.unresolved soup (is_tag "title") (fun n => Py.strip (get_text n)) ->
   OldExtractor.md_title (OldExtractor.extract_metadata soup) = "") /\
  (Spec.unresolved soup (Spec.meta_named OldExtractor.author_names) (Spec.attr_value "content") ->
   OldExtractor.md_author (OldExtractor.extract_metadata soup) = "") /\
  (Spec.unresolved soup (Spec.meta_named OldExtractor.date_names) (Spec.attr_value "content") ->
   OldExtractor.md_date (OldExtractor.extract_metadata soup) = None) /\
  (Spec.unresolved soup (Spec.meta_named OldExtractor.description_names)
     (Spec.attr_value "content") ->
   OldExtractor.md_description (OldExtractor.extract_metadata soup) = "").
Proof.
  split; [|split; [|split; [|split; [|split; [|split; [|split]]]]]].
  - intros H1 H2 H3 H4; unfold Extractors._extract_title.
    rewrite (CleanFacts.truthy_attr_unresolved _ _ _ H1),
            (CleanFacts.truthy_attr_unresolved _ _ _ H2).
    unfold find; destruct (find_p (is_tag "h1") soup) as [h|] eqn:E;
      [apply CleanFacts.find_p_some in E as [Hin Hs]; exact (H3 h Hin Hs)|].
    exact (CleanFacts.find_unresolved _ _ _ H4).
  - intros H1 H2 H3; unfold Extractors._extract_author.
    rewrite (CleanFacts.truthy_attr_unresolved _ _ _ H1),
            (CleanFacts.truthy_attr_unresolved _ _ _ H2).
    exact (CleanFacts.find_unresolved _ _ _ H3).
  - intros H1 H2; unfold Extractors._extract_date.
    destruct (List.find Extractors.date_meta (find_all ["meta"] soup)) as [m|] eqn:E.
    + apply List.find_some in E as [Hin Hd].
      unfold find_all, find_all_p in Hin; apply filter_In in Hin as [Hin Hm].
      unfold is_tag_in in Hm; cbn [existsb] in Hm; rewrite orb_false_r in Hm.
      apply (H1 m Hin); rewrite Hm, Hd; reflexivity.
    + unfold find; rewrite (CleanFacts.truthy_attr_unresolved _ _ _ H2); reflexivity.
  - intros H; unfold Extractors._extract_canonical_url.
    rewrite (CleanFacts.truthy_attr_unresolved _ _ _ H); reflexivity.
  - intros H; unfold OldExtractor.extract_metadata; cbn [OldExtractor.md_title].
    exact (CleanFacts.find_unresolved _ _ _ H).
  - intros H; unfold OldExtractor.extract_metadata; cbn [OldExtractor.md_author].
    rewrite (CleanFacts.first_meta_unresolved _ _ H); reflexivity.
  - intros H; unfold OldExtractor.extract_metadata; cbn [OldExtractor.md_date].
    rewrite (CleanFacts.first_meta_unresolved _ _ H); reflexivity.
  - intros H; unfold OldExtractor.extract_metadata; cbn [OldExtractor.md_description].
    rewrite (CleanFacts.first_meta_unresolved _ _ H); reflexivity.
Qed.

Lemma metadata_unresolved_defaults_witness :
  Extractors._extract_author meta_doc = "Jane Doe" /\
  OldExtractor.md_author (OldExtractor.extract_metadata meta_doc) = "Jane Doe" /\
  Extractors._extract_title meta_doc = "" /\
  Extractors._extract_date meta_doc = "" /\
  Extractors._extract_canonical_url meta_doc = "" /\
  OldExtractor.md_title (OldExtractor.extract_metadata meta_doc) = "" /\
  OldExtractor.md_date (OldExtractor.extract_metadata meta_doc) = None /\
  OldExtractor.md_description (OldExtractor.extract_metadata meta_doc) = "" /\
  Extractors._extract_author nav_doc = "" /\
  OldExtractor.md_author (OldExtractor.extract_metadata nav_doc) = "".
Proof.
  destruct (metadata_unresolved_defaults meta_doc) as (Ht & _ & Hd & Hc & Hot & _ & Hod & Hodesc).
  destruct (metadata_unresolved_defaults nav_doc) as (_ & Ha & _ & _ & _ & Hoa & _ & _).
  split; [vm_compute; reflexivity|]. split; [vm_compute; reflexivity|].
  refine (conj _ (conj _ (conj _ (conj _ (conj _ (conj _ (conj _ _)))))));
    [apply Ht|apply Hd|apply Hc|apply Hot|apply Hod|apply Hodesc|apply Ha|apply Hoa];
    apply CleanFacts.unresolvedb_sound; vm_compute; reflexivity.
Defined.

(** C7 fails as stated: with no date meta tag, the older
    [extract_metadata] gives [None] for the date, not "". *)
Lemma old_metadata_date_none :
  OldExtractor.md_date (OldExtractor.extract_metadata tree_A) = None.
Proof. vm_compute; reflexivity. Qed.

(** C8 (corrected): the older locator takes the text of the first article
    element whenever there is one (empty or not, one of several), else the
    first main, else the body, else ""; nothing else is consulted.  The
    extractors pipeline keeps readability's summary when it is non-empty
    and otherwise joins the text of every article element. *)
Theorem main_content_locator :
  (forall soup a, find "article" soup = Some a ->
     OldExtractor._extract_main_content soup = get_text a) /\
  (forall soup m, find "article" soup = None -> find "main" soup = Some m ->
     OldExtractor._extract_main_content soup = get_text m) /\
  (forall soup, find "article" soup = None -> find "main" soup = None ->
     OldExtractor._extract_main_content soup =
     match find "body" soup with Some b => get_text b | None => "" end) /\
  (forall soup summary,
     Extractors.main_content soup summary =
     if Py.truthy summary then summary
     else Py.join " " (map get_text (find_all ["article"] soup))).
Proof.
  split; [|split; [|split]].
  - intros soup a Ha; unfold OldExtractor._extract_main_content; rewrite Ha; reflexivity.
  - intros soup m Ha Hm; unfold OldExtractor._extract_main_content; rewrite Ha, Hm; reflexivity.
  - intros soup Ha Hm; unfold OldExtractor._extract_main_content; rewrite Ha, Hm; reflexivity.
  - intros soup summary; unfold Extractors.main_content.
    destruct (Py.truthy summary) eqn:Ht; [reflexivity|].
    destruct (find_all ["article"] soup); [|reflexivity].
    unfold Py.truthy in Ht; apply negb_false_iff, String.eqb_eq in Ht; subst; reflexivity.
Qed.

Lemma main_content_locator_witness :
  find "article" two_articles = Some (el "article" [par "First article content."]) /\
  OldExtractor._extract_main_content two_articles = get_text (el "article" [par "First article content."]) /\
  find "main" main_doc = Some (el "main" [par "Body of the story."]) /\
  OldExtractor._extract_main_content main_doc = get_text (el "main" [par "Body of the story."]) /\
  OldExtractor._extract_main_content nav_doc =
    match find "body" nav_doc with Some b => get_text b | None => "" end.
Proof.
  split; [reflexivity|]. split; [apply (proj1 main_content_locator two_articles); reflexivity|].
  split; [reflexivity|].
  split; [apply (proj1 (proj2 main_content_locator) main_doc); reflexivity|].
  apply (proj1 (proj2 (proj2 main_content_locator)) nav_doc); reflexivity.
Defined.

(** C8 fails as stated: with two articles only the first one's text is
    returned, and an empty article wins over a main element with text. *)
Lemma locator_counterexample :
  OldExtractor._extract_main_content two_articles = "First article content." /\
  get_text (el "main" [par "Body of the story."]) = "Body of the story." /\
  OldExtractor._extract_main_content empty_article_main = "".
Proof. vm_compute; repeat split. Qed.

End Claims.

(** ** Facts about whitespace collapsing *)
Module WsFacts.
Import Py PyFacts.

Lemma str_app_assoc (a b c : string) : ((a ++ b) ++ c = a ++ (b ++ c))%string.
Proof. induction a as [|x a IH]; simpl; [reflexivity|rewrite IH; reflexivity]. Qed.

Lemma str_app_nil_r (a : string) : (a ++ EmptyString)%string = a.
Proof. induction a as [|x a IH]; simpl; [reflexivity|rewrite IH; reflexivity]. Qed.

Lemma str_length_app (a b : string) :
  String.length (a ++ b) = String.length a + String.length b.
Proof. induction a as [|x a IH]; simpl; [reflexivity|rewrite IH; reflexivity]. Qed.

Lemma space_char : is_space " "%char = true.
Proof. reflexivity. Qed.

(** The words after the first one of [split_go] are non-empty. *)
Lemma split_go_nonempty s : Forall (fun w => w <> EmptyString) (snd (split_go s)).
Proof.
  induction s as [|c s IH]; simpl; [constructor|].
  destruct (split_go s) as [w ws]; simpl in *.
  destruct (is_space c); simpl; auto.
  destruct (String.eqb w EmptyString) eqn:E; auto.
  constructor; auto. apply String.eqb_neq; exact E.
Qed.

(** The words of [str.split()]: non-empty and without whitespace. *)
Lemma split_words s :
  Forall (fun w => w <> EmptyString /\ all_chars not_space w = true) (split s).
Proof.
  pose proof (split_go_no_space s) as [H1 H2].
  pose proof (split_go_nonempty s) as H3.
  unfold split; destruct (split_go s) as [w ws]; simpl in *.
  assert (Hws : Forall (fun w => w <> EmptyString /\ all_chars not_space w = true) ws).
  { clear H1; induction ws as [|w' ws IH]; [constructor|].
    inversion H2; inversion H3; subst; constructor; auto. }
  destruct (String.eqb w EmptyString) eqn:E; auto.
  constructor; auto; split; auto; apply String.eqb_neq; exact E.
Qed.

Lemma sub_ws_empty s : sub_ws s = EmptyString -> s = EmptyString.
Proof.
  destruct s as [|c s]; simpl; auto.
  destruct (is_space c); [|discriminate].
  destruct (sub_ws s) as [|d r]; [discriminate|].
  destruct (Ascii.eqb d " "%char); discriminate.
Qed.

Lemma first_not_space d w : all_chars not_space (String d w) = true -> is_space d = false.
Proof. simpl; unfold not_space; destruct (is_space d); auto. Qed.

(** [re.sub(r'\s+', ' ', s)] is the first word, then each further word
    after one space, then one space if [s] ends in whitespace. *)
Lemma sub_ws_shape s :
  sub_ws s = (fst (split_go s) ++ Spec.spaced (snd (split_go s)) ++
              (if Spec.ends_space s then " " else ""))%string.
Proof.
  induction s as [|c s IH]; [reflexivity|].
  pose proof (split_go_no_space s) as [Hw Hws].
  pose proof (split_go_nonempty s) as Hne.
  assert (Hend : s <> EmptyString -> Spec.ends_space (String c s) = Spec.ends_space s)
    by (destruct s; [congruence|reflexivity]).
  simpl sub_ws; simpl split_go.
  destruct (split_go s) as [w ws] eqn:Hs; simpl fst in *; simpl snd in *.
  destruct (is_space c) eqn:Hc.
  - destruct (String.eqb w EmptyString) eqn:Ew.
    + apply String.eqb_eq in Ew; subst w.
      change (EmptyString ++ ?x)%string with x in IH |- *.
      destruct (String.eqb_spec s EmptyString) as [->|Hs0].
      * simpl in Hs; injection Hs as <-; simpl; rewrite Hc; reflexivity.
      * rewrite (Hend Hs0), IH.
        destruct ws as [|w1 r].
        -- cbn [Spec.spaced] in IH |- *.
           destruct (Spec.ends_space s) eqn:ET; [reflexivity|].
           exfalso; apply Hs0, sub_ws_empty, IH.
        -- reflexivity.
    + destruct w as [|d w']; [discriminate|].
      assert (Hs0 : s <> EmptyString) by (intros ->; simpl in Hs; discriminate).
      rewrite IH, Hend by exact Hs0.
      pose proof (first_not_space d w' Hw) as Hd.
      simpl. destruct (Ascii.eqb_spec d " "%char) as [->|_]; [discriminate|].
      rewrite str_app_assoc; reflexivity.
  - destruct (String.eqb_spec s EmptyString) as [->|Hs0].
    + simpl in Hs; injection Hs as <- <-; simpl; rewrite Hc; reflexivity.
    + rewrite IH, (Hend Hs0); reflexivity.
Qed.

Lemma rstrip_nonspace_app w z :
  all_chars not_space w = true -> rstrip (w ++ z) = (w ++ rstrip z)%string.
Proof.
  induction w as [|c w IH]; simpl; auto.
  intros H; split_andb; unfold not_space in H.
  destruct (is_space c); [discriminate|]; simpl; rewrite IH; auto.
Qed.

Lemma rstrip_all_space t : all_chars is_space t = true -> rstrip t = EmptyString.
Proof.
  induction t as [|c t IH]; simpl; auto.
  intros H; split_andb; rewrite H, IH by assumption; reflexivity.
Qed.

Lemma lstrip_all_space t : all_chars is_space t = true -> lstrip t = EmptyString.
Proof.
  induction t as [|c t IH]; simpl; auto.
  intros H; split_andb; rewrite H; auto.
Qed.

Lemma lstrip_nonspace w z :
  w <> EmptyString -> all_chars not_space w = true -> lstrip (w ++ z) = (w ++ z)%string.
Proof.
  destruct w as [|d w]; [congruence|]; intros _ H.
  simpl; rewrite (first_not_space d w H); reflexivity.
Qed.

Lemma rstrip_spaced ws t :
  Forall (fun w => w <> EmptyString /\ all_chars not_space w = true) ws ->
  all_chars is_space t = true -> rstrip (Spec.spaced ws ++ t) = Spec.spaced ws.
Proof.
  intros Hws Ht; induction Hws as [|w ws [Hne Hw] _ IH]; simpl;
    [apply rstrip_all_space; exact Ht|].
  rewrite str_app_assoc, rstrip_nonspace_app, IH by assumption.
  destruct w as [|d w']; [congruence|]; reflexivity.
Qed.

Lemma concat_spaced w r : String.concat " " (w :: r) = (w ++ Spec.spaced r)%string.
Proof.
  revert w; induction r as [|w' r IH]; intros w.
  - simpl; rewrite str_app_nil_r; reflexivity.
  - change (String.concat " " (w :: w' :: r)) with (w ++ " " ++ String.concat " " (w' :: r))%string.
    rewrite IH; reflexivity.
Qed.

Lemma strip_shape w0 ws t :
  all_chars not_space w0 = true ->
  Forall (fun w => w <> EmptyString /\ all_chars not_space w = true) ws ->
  all_chars is_space t = true ->
  strip (w0 ++ Spec.spaced ws ++ t) =
  join " " (if String.eqb w0 EmptyString then ws else w0 :: ws).
Proof.
  intros Hw0 Hws Ht; unfold strip, join.
  destruct (String.eqb_spec w0 EmptyString) as [->|Hne].
  - simpl; destruct Hws as [|w ws [Hne Hw] Hws].
    + simpl; rewrite lstrip_all_space by exact Ht; reflexivity.
    + simpl; rewrite str_app_assoc, lstrip_nonspace by assumption.
      rewrite rstrip_nonspace_app, rstrip_spaced by assumption.
      rewrite <- concat_spaced; reflexivity.
  - rewrite lstrip_nonspace, rstrip_nonspace_app, rstrip_spaced by assumption.
    rewrite concat_spaced; reflexivity.
Qed.

Lemma sub_ws_strip s : strip (sub_ws s) = join " " (split s).
Proof.
  rewrite sub_ws_shape; unfold split.
  pose proof (split_go_no_space s) as [Hw Hws].
  pose proof (split_go_nonempty s) as Hne.
  destruct (split_go s) as [w ws]; simpl in *.
  apply strip_shape; auto.
  - clear Hw; induction ws as [|w' ws IH]; [constructor|].
    inversion Hws; inversion Hne; subst; constructor; auto.
  - destruct (Spec.ends_space s); reflexivity.
Qed.

Lemma sub_ws_chars s : all_chars (fun c => not_space c || Ascii.eqb c " "%char) (sub_ws s) = true.
Proof.
  induction s as [|c s IH]; simpl; auto.
  destruct (is_space c) eqn:Hc.
  - destruct (sub_ws s) as [|d r]; [reflexivity|].
    destruct (Ascii.eqb d " "%char); simpl in IH |- *; rewrite IH; reflexivity.
  - simpl; rewrite IH; unfold not_space; rewrite Hc; reflexivity.
Qed.

Lemma splitlines_no_break x :
  all_chars (fun c => negb (is_line_break c)) x = true ->
  splitlines x = if String.eqb x EmptyString then [] else [x].
Proof.
  induction x as [|c x IH]; simpl; auto.
  intros H; split_andb; destruct (is_line_break c); [discriminate|].
  rewrite IH by assumption; destruct x as [|d x]; reflexivity.
Qed.

Lemma strip_idem x : strip (strip x) = strip x.
Proof.
  unfold strip at 1; rewrite lstrip_strip; apply rstrip_strip.
Qed.

Lemma old_clean_strip s : OldExtractor.clean_content s = strip (sub_ws s).
Proof.
  unfold OldExtractor.clean_content.
  rewrite splitlines_no_break.
  - destruct (String.eqb_spec (sub_ws s) EmptyString) as [E|E].
    + rewrite E; reflexivity.
    + simpl; destruct (truthy (strip (sub_ws s))) eqn:Ht; simpl.
      * apply strip_idem.
      * unfold truthy in Ht; apply negb_false_iff, String.eqb_eq in Ht; rewrite Ht; reflexivity.
  - eapply all_chars_mono; [|apply sub_ws_chars].
    intros c; destruct (is_line_break c) eqn:Hl; auto.
    unfold not_space; rewrite (CleanFacts.line_break_space c Hl); simpl.
    destruct (Ascii.eqb_spec c " "%char) as [->|]; [discriminate|auto].
Qed.

Lemma split_go_nonspace_app w z :
  all_chars not_space w = true ->
  split_go (w ++ z) = ((w ++ fst (split_go z))%string, snd (split_go z)).
Proof.
  induction w as [|c w IH]; simpl.
  - destruct (split_go z); reflexivity.
  - intros H; split_andb; rewrite IH by assumption.
    unfold not_space in H; destruct (is_space c); [discriminate|reflexivity].
Qed.

Lemma split_go_spaced ws :
  Forall (fun w => w <> EmptyString /\ all_chars not_space w = true) ws ->
  split_go (Spec.spaced ws) = (EmptyString, ws).
Proof.
  induction 1 as [|w ws [Hne Hw] _ IH]; [reflexivity|].
  simpl; rewrite split_go_nonspace_app, IH by assumption; simpl.
  rewrite str_app_nil_r.
  destruct (String.eqb_spec w EmptyString); [congruence|reflexivity].
Qed.

(** [str.split] undoes [" ".join] on words without whitespace. *)
Lemma split_join ws :
  Forall (fun w => w <> EmptyString /\ all_chars not_space w = true) ws ->
  split (join " " ws) = ws.
Proof.
  intros Hws; destruct Hws as [|w ws [Hne Hw] Hws]; [reflexivity|].
  unfold join; rewrite concat_spaced; unfold split.
  rewrite split_go_nonspace_app, split_go_spaced by assumption; simpl.
  rewrite str_app_nil_r; destruct (String.eqb_spec w EmptyString); [congruence|reflexivity].
Qed.

Lemma strip_join ws :
  Forall (fun w => w <> EmptyString /\ all_chars not_space w = true) ws ->
  strip (join " " ws) = join " " ws.
Proof.
  intros Hws; destruct Hws as [|w ws [Hne Hw] Hws]; [reflexivity|].
  unfold join at 1; rewrite concat_spaced, <- (str_app_nil_r (Spec.spaced ws)).
  rewrite strip_shape by (auto; reflexivity).
  destruct (String.eqb_spec w EmptyString); [congruence|reflexivity].
Qed.

End WsFacts.

(** ** Facts about the URL substitution *)
Module UrlFacts.
Import Py PyFacts WsFacts Extractors.

Lemma url_head_run s : s = (Spec.url_head s ++ url_run s)%string.
Proof.
  induction s as [|c s IH]; simpl; auto.
  destruct (url_char c); simpl; [rewrite <- IH|]; reflexivity.
Qed.

Lemma url_head_of_run s : Spec.url_head (url_run s) = EmptyString.
Proof.
  induction s as [|c s IH]; simpl; auto.
  destruct (url_char c) eqn:E; auto; simpl; rewrite E; reflexivity.
Qed.

Lemma url_head_app p z :
  all_chars url_char p = true -> Spec.url_head (p ++ z) = (p ++ Spec.url_head z)%string.
Proof.
  induction p as [|c p IH]; simpl; auto.
  intros H; split_andb; rewrite H, IH by assumption; reflexivity.
Qed.

Lemma url_run_length s : String.length (url_run s) <= String.length s.
Proof.
  induction s as [|c s IH]; simpl; auto.
  destruct (url_char c); simpl; lia.
Qed.

Lemma prefix_app_ex p s : String.prefix p s = true -> exists z, s = (p ++ z)%string.
Proof.
  revert s; induction p as [|a p IH]; intros s H; [exists s; reflexivity|].
  destruct s as [|b s]; [discriminate|]; simpl in H.
  destruct (ascii_dec a b) as [<-|]; [|discriminate].
  destruct (IH s H) as [z ->]; exists z; reflexivity.
Qed.

(** A match of the URL pattern: "https://" or "http://", a URL character,
    and the longest run of URL characters after it. *)
Lemma url_match_shape x r :
  url_match x = Some r ->
  exists p c z, (p = "https://" \/ p = "http://") /\ url_char c = true /\
                x = (p ++ String c z)%string /\ r = url_run z.
Proof.
  unfold url_match; cbv zeta; intros Hm.
  destruct (String.prefix "https://" x) eqn:E1.
  - destruct (prefix_app_ex _ _ E1) as [y ->].
    change (drop 8 ("https://" ++ y)) with y in Hm.
    destruct y as [|c z]; [discriminate|].
    destruct (url_char c) eqn:Hc; [|discriminate]; injection Hm as <-.
    exists "https://", c, z; auto.
  - destruct (String.prefix "http://" x) eqn:E2; [|discriminate].
    destruct (prefix_app_ex _ _ E2) as [y ->].
    change (drop 7 ("http://" ++ y)) with y in Hm.
    destruct y as [|c z]; [discriminate|].
    destruct (url_char c) eqn:Hc; [|discriminate]; injection Hm as <-.
    exists "http://", c, z; auto.
Qed.

Lemma url_match_shorter x r :
  url_match x = Some r -> String.length r < String.length x.
Proof.
  intros Hm; destruct (url_match_shape x r Hm) as (p & c & z & _ & _ & -> & ->).
  rewrite str_length_app; simpl; pose proof (url_run_length z); lia.
Qed.

Lemma url_match_rest_head x r : url_match x = Some r -> Spec.url_head r = EmptyString.
Proof.
  intros Hm; destruct (url_match_shape x r Hm) as (p & c & z & _ & _ & _ & ->).
  apply url_head_of_run.
Qed.

(** Whether a URL starts at [x] depends only on the run of URL characters
    that starts [x], and only through a prefix of it. *)
Lemma url_match_head_mono x y t :
  Spec.url_head y = (Spec.url_head x ++ t)%string -> url_match y = None -> url_match x = None.
Proof.
  intros H Hy; destruct (url_match x) as [r|] eqn:Hx; [exfalso|reflexivity].
  destruct (url_match_shape x r Hx) as (p & c & z & Hp & Hc & -> & _).
  assert (Hp' : all_chars url_char p = true) by (destruct Hp as [-> | ->]; reflexivity).
  rewrite url_head_app in H by exact Hp'; simpl in H; rewrite Hc in H.
  pose proof (url_head_run y) as Hy'; rewrite H, !str_app_assoc in Hy'; simpl in Hy'.
  remember ((Spec.url_head z ++ t ++ url_run y)%string) as w.
  rewrite Hy' in Hy; clear Hy' Heqw.
  destruct Hp as [-> | ->]; cbn in Hy; rewrite Hc in Hy; discriminate.
Qed.

(** The run of URL characters that starts the output of the substitution
    is a prefix of the one that starts its input. *)
Lemma url_sub_go_head f s : exists t, Spec.url_head s = (Spec.url_head (url_sub_go f s) ++ t)%string.
Proof.
  revert s; induction f as [|f IH]; intros s.
  - exists EmptyString; simpl; rewrite str_app_nil_r; reflexivity.
  - destruct s as [|c s']; [exists EmptyString; reflexivity|]; simpl url_sub_go.
    destruct (url_match (String c s')) as [rest|] eqn:Hm.
    + exists (Spec.url_head (String c s')).
      destruct (IH rest) as [t Ht]; rewrite (url_match_rest_head _ _ Hm) in Ht.
      destruct (Spec.url_head (url_sub_go f rest)); [reflexivity|discriminate].
    + destruct (IH s') as [t Ht]; simpl.
      destruct (url_char c); [exists t; simpl; rewrite Ht; reflexivity|].
      exists EmptyString; reflexivity.
Qed.

Lemma url_match_empty : url_match EmptyString = None.
Proof. reflexivity. Qed.

Lemma drop_empty k : drop k EmptyString = EmptyString.
Proof. destruct k; reflexivity. Qed.

Lemma url_sub_go_no_url f s :
  String.length s <= f -> forall k, url_match (drop k (url_sub_go f s)) = None.
Proof.
  revert s; induction f as [|f IH]; intros s Hlen k.
  - destruct s; [|simpl in Hlen; lia]; rewrite drop_empty; reflexivity.
  - destruct s as [|c s']; [rewrite drop_empty; reflexivity|]; simpl url_sub_go.
    destruct (url_match (String c s')) as [rest|] eqn:Hm.
    + apply IH; pose proof (url_match_shorter _ _ Hm); lia.
    + destruct k as [|k]; [simpl|apply IH; simpl in Hlen; lia].
      destruct (url_sub_go_head f s') as [t Ht].
      apply (url_match_head_mono _ (String c s') (if url_char c then t else EmptyString));
        [|exact Hm].
      simpl; destruct (url_char c); [rewrite Ht|]; reflexivity.
Qed.

Lemma prefix_drop_false p s :
  contains p s = false -> forall k, String.prefix p (drop k s) = false.
Proof.
  induction s as [|c s IH]; intros H k.
  - rewrite drop_empty; rewrite contains_eq in H; apply orb_false_iff in H as [H _]; exact H.
  - rewrite contains_eq in H; apply orb_false_iff in H as [H1 H2].
    destruct k; [exact H1|apply IH, H2].
Qed.

Lemma url_match_no_prefix x :
  String.prefix "https://" x = false -> String.prefix "http://" x = false -> url_match x = None.
Proof. intros H1 H2; unfold url_match; rewrite H1, H2; reflexivity. Qed.

Lemma url_sub_go_id f s : (forall k, url_match (drop k s) = None) -> url_sub_go f s = s.
Proof.
  revert s; induction f as [|f IH]; intros s H; [reflexivity|].
  destruct s as [|c s']; [reflexivity|]; simpl url_sub_go.
  assert (H0 : url_match (String c s') = None) by exact (H 0).
  rewrite H0, IH; [reflexivity|].
  intros k; exact (H (S k)).
Qed.

Lemma filter_chars_id keep s : all_chars keep s = true -> filter_chars keep s = s.
Proof.
  induction s as [|c s IH]; simpl; auto.
  intros H; split_andb; rewrite H, IH; auto.
Qed.

Lemma all_chars_special_sub s : all_chars special_keep (special_sub s) = true.
Proof.
  induction s as [|c s IH]; simpl; auto.
  unfold special_sub in *; simpl; destruct (special_keep c) eqn:E; simpl; auto.
  rewrite E; exact IH.
Qed.

End UrlFacts.

(** ** Facts about trees and the article pipeline *)
Module TreeFacts.
Import Html Exn.

(** Induction over trees, with the hypothesis on every child. *)
Lemma node_rect_all (P : node -> Prop) :
  (forall s, P (Text s)) ->
  (forall c s, P (Special c s)) ->
  (forall t a kids, Forall P kids -> P (Elem t a kids)) ->
  forall n, P n.
Proof.
  intros Ht Hs He; fix IH 1; intros [s|c s|t a kids]; [apply Ht|apply Hs|apply He].
  revert kids; fix IHl 1; intros [|k kids]; constructor; [apply IH|apply IHl].
Qed.

Lemma decompose_removes ts n d :
  In d (descendants (decompose ts n)) -> is_tag_in ts d = false.
Proof.
  revert d; induction n as [s|c s|t a kids HF] using node_rect_all; intros d Hin;
    simpl in Hin; [contradiction|contradiction|].
  revert Hin; induction HF as [|k kids Hk HF IH]; intros Hin; simpl in Hin; [contradiction|].
  destruct (is_tag_in ts k) eqn:E; [apply IH; exact Hin|].
  simpl in Hin; destruct Hin as [<-|Hin]; [destruct k; exact E|].
  apply in_app_or in Hin as [Hin|Hin]; [apply Hk; exact Hin|apply IH; exact Hin].
Qed.

Lemma decompose_id ts n :
  (forall d, In d (descendants n) -> is_tag_in ts d = false) -> decompose ts n = n.
Proof.
  induction n as [s|c s|t a kids HF] using node_rect_all; intros H; [reflexivity|reflexivity|].
  simpl in H |- *; f_equal.
  revert H; induction HF as [|k kids Hk HF IH]; intros H; [reflexivity|].
  rewrite (H k (or_introl eq_refl)); f_equal.
  - apply Hk; intros d Hd; apply H; right; apply in_or_app; left; exact Hd.
  - apply IH; intros d Hd; apply H; right; apply in_or_app; right; exact Hd.
Qed.

Lemma find_in_some {A} (f : A -> bool) l x : In x l -> f x = true -> List.find f l <> None.
Proof.
  induction l as [|a l IH]; simpl; [contradiction|].
  intros [<-|Hin] Hx; [rewrite Hx; discriminate|].
  destruct (f a); [discriminate|apply IH; assumption].
Qed.

(** [_parse_article] never returns: [_extract_metadata] raises first. *)
Lemma parse_article_raises bs_parse bs_reject rs rt urljoin html url :
  exists e, Extractors._parse_article bs_parse bs_reject rs rt urljoin html url = Exc e.
Proof.
  unfold Extractors._parse_article.
  destruct (bs_reject html) as [e|]; [eauto|].
  destruct (rs html) as [summary|e]; simpl; [|eauto].
  destruct (Py.truthy (Extractors._extract_title (bs_parse html))); simpl; [eauto|].
  destruct (rt html) as [t|e]; simpl; eauto.
Qed.

End TreeFacts.

(** ** Further properties of the code *)
Module Extras.
Import Html Exn Samples.

(** The older [clean_content] is [" ".join(s.split())]: whitespace runs
    become one space, line structure disappears, both ends are
    stripped. *)
Theorem old_clean_content_split_join s :
  OldExtractor.clean_content s = Py.join " " (Py.split s).
Proof. rewrite WsFacts.old_clean_strip; apply WsFacts.sub_ws_strip. Qed.

(** The older [clean_content] keeps the words of its input, so cleaning
    twice is cleaning once. *)
Theorem old_clean_content_words s :
  Py.split (OldExtractor.clean_content s) = Py.split s /\
  OldExtractor.clean_content (OldExtractor.clean_content s) = OldExtractor.clean_content s.
Proof.
  assert (H : Py.split (OldExtractor.clean_content s) = Py.split s).
  { rewrite WsFacts.old_clean_strip, WsFacts.sub_ws_strip.
    apply WsFacts.split_join, WsFacts.split_words. }
  split; [exact H|].
  rewrite (WsFacts.old_clean_strip (OldExtractor.clean_content s)), WsFacts.sub_ws_strip, H.
  rewrite <- WsFacts.sub_ws_strip, <- WsFacts.old_clean_strip; reflexivity.
Qed.

(** After [re.sub(URL_PATTERN, '', text)] no URL is left: at no position
    of the result does "http://" or "https://" followed by a URL
    character start. *)
Theorem url_sub_leaves_no_url s k :
  Extractors.url_match (Py.drop k (Extractors.url_sub s)) = None.
Proof. apply UrlFacts.url_sub_go_no_url; lia. Qed.

(** Text that is already clean (single-spaced and stripped, only word
    characters, whitespace and . , ! ? -, no "http://" or "https://")
    and that parses to one string comes out of [_clean_content]
    unchanged. *)
Theorem clean_content_keeps_clean_text bs_parse s :
  bs_parse s = document [Text s] ->
  Py.join " " (Py.split s) = s ->
  Py.all_chars Extractors.special_keep s = true ->
  Py.contains "http://" s = false -> Py.contains "https://" s = false ->
  Extractors._clean_content bs_parse s = s.
Proof.
  intros Hp Hj Hk H1 H2; unfold Extractors._clean_content; cbv zeta.
  rewrite Hp; change (get_text_sep " " (decompose ["script"; "style"; "nav"; "header"; "footer"]
                                          (document [Text s]))) with (String.concat " " [s]).
  change (String.concat " " [s]) with s; rewrite Hj.
  unfold Extractors.url_sub; rewrite UrlFacts.url_sub_go_id.
  - unfold Extractors.special_sub; rewrite UrlFacts.filter_chars_id by exact Hk.
    rewrite <- Hj at 1; rewrite WsFacts.strip_join by apply WsFacts.split_words; exact Hj.
  - intros k; apply UrlFacts.url_match_no_prefix; apply UrlFacts.prefix_drop_false; assumption.
Qed.

Lemma clean_content_keeps_clean_text_witness :
  Extractors._clean_content (parse_table []) "Four short paragraphs, no links." =
  "Four short paragraphs, no links.".
Proof. apply clean_content_keeps_clean_text; vm_compute; reflexivity. Defined.

(** Every [content] the extractors compute holds only word characters,
    whitespace and . , ! ? - (the test hook apart). *)
Theorem extract_content_charset bs_parse bs_reject rs rt self html r :
  Extractors.extract_content bs_parse bs_reject rs rt self html = Ok r ->
  (Extractors.test_mode self = true /\ Extractors._test_content self = Some r) \/
  Py.all_chars Extractors.special_keep (Extractors.content r) = true.
Proof.
  unfold Extractors.extract_content; intros H.
  destruct (Extractors.test_mode self), (Extractors._test_content self) as [tc|];
    try (injection H as <-; left; auto).
  all: right; destruct (bs_reject html) as [e|]; simpl in H; [discriminate|];
    destruct (rs html) as [summary|e]; simpl in H; [|discriminate];
    lazymatch type of H with
    | context [match ?o with Some _ => _ | None => _ end] => destruct o as [e|] end;
    [discriminate|];
    destruct (rt html) as [title|e']; simpl in H; [|discriminate];
    injection H as <-; simpl.
  all: unfold Extractors._clean_content; cbv zeta;
    apply PyFacts.all_chars_strip, UrlFacts.all_chars_special_sub.
Qed.

Lemma extract_content_charset_witness :
  Extractors.extract_content parse_A accepts_all readability_summary_A readability_title_A
    extractor_A html_A = Ok result_A /\
  ((Extractors.test_mode extractor_A = true /\ Extractors._test_content extractor_A = Some result_A) \/
   Py.all_chars Extractors.special_keep (Extractors.content result_A) = true).
Proof.
  split; [vm_compute; reflexivity|].
  apply (extract_content_charset parse_A accepts_all readability_summary_A readability_title_A
           extractor_A html_A result_A).
  vm_compute; reflexivity.
Defined.

(** A successful run of the older [extract_content] returns the main
    text with its whitespace collapsed, at least [min_content_length]
    characters long, the metadata of the same tree and the clock
    reading. *)
Theorem old_extract_content_result bs_parse bs_reject min html now r :
  OldExtractor.extract_content bs_parse bs_reject min html now = Ok r ->
  OldExtractor.content r =
    Py.join " " (Py.split (OldExtractor._extract_main_content (bs_parse html))) /\
  (min <= Z.of_nat (String.length (OldExtractor.content r)))%Z /\
  OldExtractor.meta r = OldExtractor.extract_metadata (bs_parse html) /\
  OldExtractor.extracted_at r = now.
Proof.
  unfold OldExtractor.extract_content.
  destruct (negb (Py.truthy html)); [discriminate|].
  destruct (bs_reject html) as [e|]; [discriminate|]; cbv zeta.
  destruct (Z.ltb_spec (Z.of_nat (String.length (OldExtractor.clean_content
              (OldExtractor._extract_main_content (bs_parse html))))) min) as [_|Hge];
    [discriminate|].
  intros H; injection H as <-; simpl.
  rewrite old_clean_content_split_join in *; auto.
Qed.

Lemma old_extract_content_result_witness :
  let r := {| OldExtractor.content := "TOne.Two.Three.Four.";
              OldExtractor.meta := OldExtractor.extract_metadata tree_A;
              OldExtractor.extracted_at := "2024-05-01T12:00:00" |} in
  OldExtractor.extract_content parse_A accepts_all 10 html_A "2024-05-01T12:00:00" = Ok r /\
  OldExtractor.content r =
    Py.join " " (Py.split (OldExtractor._extract_main_content (parse_A html_A))) /\
  (10 <= Z.of_nat (String.length (OldExtractor.content r)))%Z /\
  OldExtractor.meta r = OldExtractor.extract_metadata (parse_A html_A) /\
  OldExtractor.extracted_at r = "2024-05-01T12:00:00".
Proof.
  intros r; split; [vm_compute; reflexivity|].
  apply (old_extract_content_result parse_A accepts_all 10 html_A "2024-05-01T12:00:00" r).
  vm_compute; reflexivity.
Defined.

(** [extract_article] never returns an article: whatever the browser,
    the page and the bypass do, every path ends in an exception, at the
    latest in [_parse_article]. *)
Theorem extract_article_always_raises bs_parse bs_reject rs rt urljoin navigate page bypass url :
  exists e, Extractors.extract_article bs_parse bs_reject rs rt urljoin navigate page bypass url = Exc e.
Proof.
  unfold Extractors.extract_article.
  destruct (navigate url) as [u|e]; cbn [bind]; [|eauto].
  destruct page as [content|e]; cbn [bind]; [|eauto].
  destruct (negb (Py.truthy content) || Extractors._is_blocked (Ok content)).
  - destruct (bypass url) as [c|e]; cbn [bind]; [|eauto].
    destruct (negb (Py.truthy c)); [eauto|apply TreeFacts.parse_article_raises].
  - cbn [bind]; destruct (negb (Py.truthy content)); [eauto|apply TreeFacts.parse_article_raises].
Qed.

(** Every link [_extract_links] returns passes [_is_article_link] and is
    [urljoin(base_url, href)] for the href of an [a] element of the
    tree; elements without href give nothing. *)
Theorem extract_links_sound urljoin soup base l :
  In l (Extractors._extract_links urljoin soup base) ->
  Extractors._is_article_link l = true /\
  exists a h, In a (find_all ["a"] soup) /\ get_attr "href" a = Some h /\ l = urljoin base h.
Proof.
  unfold Extractors._extract_links; intros Hin.
  apply filter_In in Hin as [Hin Hl]; split; [exact Hl|].
  apply in_flat_map in Hin as (a & Ha & Hin).
  destruct (get_attr "href" a) as [h|] eqn:E; [|contradiction].
  destruct Hin as [<-|[]]; exists a, h; auto.
Qed.

Lemma extract_links_sound_witness :
  Extractors._is_article_link "https://example.com/news/story-1.html" = true /\
  exists a h, In a (find_all ["a"] links_doc) /\ get_attr "href" a = Some h /\
              "https://example.com/news/story-1.html" = urljoin_root "https://example.com" h.
Proof.
  apply (extract_links_sound urljoin_root links_doc "https://example.com").
  vm_compute; left; reflexivity.
Defined.

(** [for tag in soup.find_all(ts): tag.decompose()] leaves no element
    with one of the tags [ts] anywhere in the tree, so a second pass
    changes nothing. *)
Theorem decompose_purges ts n :
  (forall d, In d (descendants (decompose ts n)) -> is_tag_in ts d = false) /\
  decompose ts (decompose ts n) = decompose ts n.
Proof.
  split; [intros d; apply TreeFacts.decompose_removes|].
  apply TreeFacts.decompose_id; intros d; apply TreeFacts.decompose_removes.
Qed.

Lemma decompose_purges_witness :
  decompose ["script"; "style"] scripted_doc =
    document [el "body" [par "Text."; el "div" [par "More."]]] /\
  decompose ["script"; "style"] (decompose ["script"; "style"] scripted_doc) =
    decompose ["script"; "style"] scripted_doc.
Proof.
  split; [reflexivity|].
  apply (proj2 (decompose_purges ["script"; "style"] scripted_doc)).
Defined.

(** [PaywallBypass.detect_paywall] calls any non-empty page paywalled
    whose lower-cased text holds one of its indicator words anywhere, a
    "Subscribe to our newsletter" footer under a long article
    included. *)
Theorem bypass_indicator_anywhere bs_parse self html ind :
  Py.truthy html = true ->
  In ind Bypass.PAYWALL_INDICATORS ->
  Py.contains ind (Py.lower (get_text (bs_parse html))) = true ->
  snd (Bypass.detect_paywall bs_parse self html) = true.
Proof.
  intros Ht Hin Hc; unfold Bypass.detect_paywall; rewrite Ht; cbv iota beta; simpl negb.
  destruct (Bypass.selector_hit (bs_parse html)); [reflexivity|].
  assert (Hi : Bypass.indicator_hit (bs_parse html) <> None).
  { unfold Bypass.indicator_hit; cbv zeta; exact (TreeFacts.find_in_some _ _ _ Hin Hc). }
  destruct (Bypass.indicator_hit (bs_parse html)); [reflexivity|congruence].
Qed.

Lemma bypass_indicator_anywhere_witness :
  snd (Bypass.detect_paywall parse_N {| Bypass.last_html := None |} html_newsletter) = true.
Proof.
  apply (bypass_indicator_anywhere parse_N _ html_newsletter "subscribe").
  - reflexivity.
  - left; reflexivity.
  - vm_compute; reflexivity.
Defined.

(** [PaywallBypass.detect_paywall] records a non-empty page it inspects
    in its state and leaves the state alone on an empty one; it logs one
    line when it answers true and none otherwise. *)
Theorem bypass_detect_state_and_log bs_parse self html :
  match Bypass.detect_paywall bs_parse self html with
  | (self', logs, v) =>
      self' = (if Py.truthy html then {| Bypass.last_html := Some html |} else self) /\
      List.length logs = (if v then 1 else 0)
  end.
Proof.
  unfold Bypass.detect_paywall; destruct (Py.truthy html); simpl; [|auto].
  destruct (Bypass.selector_hit (bs_parse html)); [auto|].
  destruct (Bypass.indicator_hit (bs_parse html)); [auto|].
  destruct (Bypass.limited_region (bs_parse html)); [|auto].
  destruct (_ <=? 3)%nat; auto.
Qed.

(** For [ContentExtractor], the subclass of [BaseScraper] that can be
    instantiated and whose [_get_html] overrides the base one,
    [scrape_article] returns the non-empty body of a 200 response only and
    reports every failure as an HTTP 500; a status [st] other than 200
    gives the detail "Failed to scrape article: Failed to fetch URL: st". *)
Theorem scrape_article_content_extractor o :
  match BaseScraper.scrape_article (Extractors._get_html o) with
  | inl s => o = BaseScraper.Reply 200 s /\ Py.truthy s = true
  | inr (code, detail) =>
      code = 500%Z /\
      forall st b, o = BaseScraper.Reply st b -> st <> 200%Z ->
        detail = ("Failed to scrape article: Failed to fetch URL: " ++ BaseScraper.str_int st)%string
  end.
Proof.
  unfold BaseScraper.scrape_article, Extractors._get_html.
  destruct o as [st b|m|m]; simpl.
  - destruct (Z.eqb_spec st 200) as [->|Hne]; simpl.
    + destruct (Py.truthy b) eqn:Eb; simpl.
      * auto.
      * split; [reflexivity|]. intros st' b' E H'. injection E as <- <-. contradiction.
    + split; [reflexivity|]. intros st' b' E _. injection E as <- <-. reflexivity.
  - split; [reflexivity|]. intros st b' E. discriminate E.
  - split; [reflexivity|]. intros st b' E. discriminate E.
Qed.

Lemma scrape_article_content_extractor_witness :
  BaseScraper.scrape_article (Extractors._get_html (BaseScraper.Reply 403 "Subscribe")) =
    inr (500%Z, "Failed to scrape article: Failed to fetch URL: 403") /\
  (500%Z = 500%Z /\
   forall st b, BaseScraper.Reply 403 "Subscribe" = BaseScraper.Reply st b -> st <> 200%Z ->
     "Failed to scrape article: Failed to fetch URL: 403" =
       ("Failed to scrape article: Failed to fetch URL: " ++ BaseScraper.str_int st)%string).
Proof.
  split; [reflexivity|].
  exact (scrape_article_content_extractor (BaseScraper.Reply 403 "Subscribe")).
Defined.

End Extras.
